(** * IframeMessenger: request/response and event messaging over postMessage

    A shallow embedding of the messenger module of place-data-js-sdk
    (RequestError, parseErrorPayload, toErrorPayload, the three message
    predicates and the IframeMessenger class) and the properties of its
    request, response and event protocol. *)

From Stdlib Require Import ZArith String List Bool Lia.
From stdpp Require Import base option list gmap strings pretty.

Open Scope string_scope.

#[local] Set Warnings "-register-all".

(** ** JavaScript values

    The data that crosses the window boundary is structured-clone data.
    The embedding covers the primitives, plain objects with own data
    properties, native [Error] instances and [RequestError] instances.
    Numbers are the integer-valued ones; what is said of a number's string
    form is said of the safe integers (magnitude at most 2^53 - 1), which
    JavaScript prints in plain decimal. Arrays are not values of this
    type, nor are functions, symbols, accessors and proxies.

    [VReqErr message type data] is [new RequestError(message, type, data)]:
    the message is a string because the Error constructor converts it; the
    [cause] option is not recorded, the module never reads it. *)

Inductive value : Type :=
| VUndef
| VNull
| VBool (b : bool)
| VNum (z : Z)
| VStr (s : string)
| VObj (props : list (string * value))
| VErr (name message : string)
| VReqErr (message : string) (type data : value).

(** The outcome of evaluating a JavaScript expression or statement list. *)
Inductive completion (A : Type) : Type :=
| Normal (a : A)
| Throw (e : value).
Arguments Normal {A} a.
Arguments Throw {A} e.

Definition TypeError (msg : string) : value := VErr "TypeError" msg.

Module Js.

(** [typeof v] *)
Definition typeof (v : value) : string :=
  match v with
  | VUndef => "undefined"
  | VBool _ => "boolean"
  | VNum _ => "number"
  | VStr _ => "string"
  | VNull | VObj _ | VErr _ _ | VReqErr _ _ _ => "object"
  end.

(** [v != null]: false exactly for [null] and [undefined]. *)
Definition not_nullish (v : value) : bool :=
  match v with
  | VUndef | VNull => false
  | _ => true
  end.

(** ToBoolean *)
Definition truthy (v : value) : bool :=
  match v with
  | VUndef | VNull => false
  | VBool b => b
  | VNum z => negb (Z.eqb z 0)
  | VStr s => negb (String.eqb s "")
  | VObj _ | VErr _ _ | VReqErr _ _ _ => true
  end.

(** First binding of [k] among the own properties of a plain object. *)
Fixpoint own (props : list (string * value)) (k : string) : option value :=
  match props with
  | [] => None
  | (k', v) :: rest => if String.eqb k' k then Some v else own rest k
  end.

(** Property names every ordinary object inherits from Object.prototype. *)
Definition object_prototype_keys : list string :=
  [ "constructor"; "hasOwnProperty"; "isPrototypeOf";
    "propertyIsEnumerable"; "toLocaleString"; "toString"; "valueOf";
    "__proto__"; "__defineGetter__"; "__defineSetter__";
    "__lookupGetter__"; "__lookupSetter__" ].

(** Data property names of a native error: its own [message] and the
    [name] and [message] of Error.prototype. *)
Definition error_keys : list string := [ "name"; "message" ].

(** Own property names a RequestError adds: the class fields [type] and
    [data], and the [cause] its constructor always hands to [super]. *)
Definition request_error_keys : list string := [ "type"; "data"; "cause" ].

Definition mem (k : string) (ks : list string) : bool :=
  existsb (String.eqb k) ks.

(** [k in v]: a TypeError when the right operand is not an object. *)
Definition has (k : string) (v : value) : completion bool :=
  match v with
  | VObj props =>
      Normal (match own props k with
              | Some _ => true
              | None => mem k object_prototype_keys
              end)
  | VErr _ _ =>
      Normal (mem k error_keys || mem k object_prototype_keys)
  | VReqErr _ _ _ =>
      Normal (mem k request_error_keys || mem k error_keys
              || mem k object_prototype_keys)
  | _ => Throw (TypeError "Cannot use 'in' operator to search for a key in a primitive")
  end.

(** [v.k] for a data property [k]. Reading a property of [null] or
    [undefined] throws; a property that is absent, or that no prototype
    defines as data, reads as [undefined]. Inherited methods are not
    data and the module reads none of them. *)
Definition get (v : value) (k : string) : completion value :=
  match v with
  | VUndef | VNull =>
      Throw (TypeError "Cannot read properties of null or undefined")
  | VObj props => Normal (default VUndef (own props k))
  | VErr name message =>
      Normal (if String.eqb k "message" then VStr message
              else if String.eqb k "name" then VStr name
              else VUndef)
  | VReqErr message type data =>
      Normal (if String.eqb k "message" then VStr message
              else if String.eqb k "name" then VStr "RequestError"
              else if String.eqb k "type" then type
              else if String.eqb k "data" then data
              else VUndef)
  | VBool _ | VNum _ | VStr _ => Normal VUndef
  end.

(** [v instanceof Error] and [v instanceof RequestError] *)
Definition instanceof_Error (v : value) : bool :=
  match v with
  | VErr _ _ | VReqErr _ _ _ => true
  | _ => false
  end.

Definition instanceof_RequestError (v : value) : bool :=
  match v with
  | VReqErr _ _ _ => true
  | _ => false
  end.

(** [v === s] for a string [s]. *)
Definition strict_eq_string (v : value) (s : string) : bool :=
  match v with
  | VStr t => String.eqb t s
  | _ => false
  end.

(** Error.prototype.toString *)
Definition error_to_string (name message : string) : string :=
  if String.eqb name "" then message
  else if String.eqb message "" then name
  else name ++ ": " ++ message.

(** ToPrimitive. An ordinary object answers with the inherited
    Object.prototype.toString unless an own [toString] property shadows
    it; an own data property is not callable, the inherited [valueOf]
    returns the object itself, and so no method yields a primitive: a
    TypeError, whatever the hint. *)
Definition to_primitive (v : value) : completion value :=
  match v with
  | VObj props =>
      match own props "toString" with
      | Some _ => Throw (TypeError "Cannot convert object to primitive value")
      | None => Normal (VStr "[object Object]")
      end
  | VErr name message => Normal (VStr (error_to_string name message))
  | VReqErr message _ _ =>
      Normal (VStr (error_to_string "RequestError" message))
  | _ => Normal v
  end.

(** ToString, as a template literal applies it to a substitution. A
    number is printed in plain decimal, which is JavaScript's form for the
    safe integers. *)
Definition to_string (v : value) : completion string :=
  match to_primitive v with
  | Throw e => Throw e
  | Normal p =>
      Normal (match p with
              | VUndef => "undefined"
              | VNull => "null"
              | VBool true => "true"
              | VBool false => "false"
              | VNum z => pretty z
              | VStr s => s
              | _ => "[object Object]"
              end)
  end.

(** [v == s] for a string [s] that is not a numeric literal, as the
    message type tags are: ToNumber of [s] is NaN, so a number or a
    boolean on the left never equals it; an object is compared through
    its primitive. *)
Definition loose_eq_tag (v : value) (s : string) : completion bool :=
  match v with
  | VUndef | VNull | VBool _ | VNum _ => Normal false
  | VStr t => Normal (String.eqb t s)
  | _ =>
      match to_primitive v with
      | Throw e => Throw e
      | Normal p => Normal (strict_eq_string p s)
      end
  end.

(** [a && b] on boolean operands: [b] is evaluated only when [a] holds. *)
Definition and_then (a b : completion bool) : completion bool :=
  match a with
  | Normal true => b
  | Normal false => Normal false
  | Throw e => Throw e
  end.

End Js.

Infix "&&>" := Js.and_then (at level 41, right associativity).

(** ** Message predicates *)

Definition messageTypeRequest : string := "IFRAME-MESSAGE-REQUEST".
Definition messageTypeResponse : string := "IFRAME-MESSAGE-RESPONSE".
Definition messageTypeEvent : string := "IFRAME-MESSAGE-EVENT".

Definition isRequest (data : value) : completion bool :=
  Normal (String.eqb (Js.typeof data) "object") &&>
  Normal (Js.not_nullish data) &&>
  Js.has "id" data &&>
  Js.has "action" data &&>
  Js.has "type" data &&>
  match Js.get data "type" with
  | Normal t => Normal (Js.strict_eq_string t messageTypeRequest)
  | Throw e => Throw e
  end.

Definition isResponse (data : value) : completion bool :=
  Normal (String.eqb (Js.typeof data) "object") &&>
  Normal (Js.not_nullish data) &&>
  Js.has "id" data &&>
  Js.has "type" data &&>
  match Js.get data "type" with
  | Normal t => Js.loose_eq_tag t messageTypeResponse
  | Throw e => Throw e
  end.

Definition isEvent (data : value) : completion bool :=
  Normal (String.eqb (Js.typeof data) "object") &&>
  Normal (Js.not_nullish data) &&>
  Js.has "action" data &&>
  Js.has "type" data &&>
  match Js.get data "type" with
  | Normal t => Normal (Js.strict_eq_string t messageTypeEvent)
  | Throw e => Throw e
  end.

(** ** The messenger and the window it listens on *)

(** A window reference, as [options.source] and [message.source] hold it. *)
Definition Win : Type := nat.

(** A handler is modelled by what [Promise.resolve().then(() => handler(p))]
    settles to (a request handler, possibly asynchronous) or by what the
    call [handler(p)] completes with (an event handler): the value returned
    or the value thrown. Handlers are taken to touch no messenger state. *)
Definition Handler : Type := value -> completion value.

Inductive LogLevel : Type := LLog | LWarn | LError.

Record LogEntry : Type := mkLog {
  level : LogLevel;
  text : string;
  detail : list value;
}.

Inductive HandlerKind : Type := OfRequest | OfEvent.

(** One call of a registered handler: which registry, which action, and
    the payload it was given. *)
Record Invocation : Type := mkInvocation {
  inv_kind : HandlerKind;
  inv_action : string;
  inv_payload : value;
}.

(** One call of [this.source.postMessage(message, this.#origin)]. *)
Record Posted : Type := mkPosted {
  message : value;
  targetOrigin : string;
}.

(** The promise built by [#receiveRequestResponse]. *)
Inductive Settlement : Type :=
| Pending
| Fulfilled (v : value)
| Rejected (e : value).

(** A call of [#receiveRequestResponse(id)]: the correlation id, the state
    of its promise, and whether its [callback] is still a listener of the
    window's message event. *)
Record Waiter : Type := mkWaiter {
  w_id : string;
  w_state : Settlement;
  w_listening : bool;
}.

(** Promise reaction jobs. [JobHandlerChain] is the chain of
    [#handleRequest]: [Promise.resolve().then(..).then(..).catch(..)] for
    the handler found under [action]; [JobFinally k] is the [.finally] of
    the k-th waiter. *)
Inductive Job : Type :=
| JobHandlerChain (action : string) (handler : Handler) (request : value)
| JobFinally (k : nat).

(** The fields of an IframeMessenger ([debug], [source], [#origin],
    [#requestHandlers], [#eventHandlers]) followed by the part of its
    window the class acts on: the per-call listeners, the microtask queue,
    the messages posted to the peer, the console, the handler calls made,
    and the exceptions that left a listener or a job uncaught. *)
Record Endpoint : Type := mkEndpoint {
  debug : bool;
  source : Win;
  origin : string;
  requestHandlers : gmap string Handler;
  eventHandlers : gmap string Handler;
  waiters : list Waiter;
  microtasks : list Job;
  posted : list Posted;
  console : list LogEntry;
  invoked : list Invocation;
  uncaught : list value;
}.

(** [MessageEvent]: [source] is null for a sender that is not a window. *)
Record MessageEvent : Type := mkEvent {
  ev_source : option Win;
  ev_origin : string;
  ev_data : value;
}.

(** Statements run against the endpoint: they complete normally or throw,
    and the effects made before a throw stay. *)
Definition JS (A : Type) : Type := Endpoint -> completion A * Endpoint.

Definition ret {A} (a : A) : JS A := fun st => (Normal a, st).

Definition throw {A} (e : value) : JS A := fun st => (Throw e, st).

Definition bind {A B} (c : JS A) (k : A -> JS B) : JS B :=
  fun st =>
    match c st with
    | (Normal a, st') => k a st'
    | (Throw e, st') => (Throw e, st')
    end.

Definition lift {A} (c : completion A) : JS A := fun st => (c, st).

Notation "'let*' x ':=' c 'in' k" := (bind c (fun x => k))
  (at level 10, x name, c at level 100, k at level 200).

Notation "c ';;;' k" := (bind c (fun _ => k))
  (at level 100, k at level 200, right associativity).

Definition when (b : bool) (c : JS unit) : JS unit :=
  if b then c else ret tt.

Definition console_write (l : LogLevel) (t : string) (d : list value) : JS unit :=
  fun st =>
    (Normal tt,
     mkEndpoint (debug st) (source st) (origin st) (requestHandlers st)
       (eventHandlers st) (waiters st) (microtasks st) (posted st)
       (console st ++ [mkLog l t d]) (invoked st) (uncaught st)).

Definition postMessage (m : value) (target : string) : JS unit :=
  fun st =>
    (Normal tt,
     mkEndpoint (debug st) (source st) (origin st) (requestHandlers st)
       (eventHandlers st) (waiters st) (microtasks st)
       (posted st ++ [mkPosted m target])
       (console st) (invoked st) (uncaught st)).

Definition enqueue (j : Job) : JS unit :=
  fun st =>
    (Normal tt,
     mkEndpoint (debug st) (source st) (origin st) (requestHandlers st)
       (eventHandlers st) (waiters st) (microtasks st ++ [j]) (posted st)
       (console st) (invoked st) (uncaught st)).

Definition record_call (i : Invocation) : JS unit :=
  fun st =>
    (Normal tt,
     mkEndpoint (debug st) (source st) (origin st) (requestHandlers st)
       (eventHandlers st) (waiters st) (microtasks st) (posted st)
       (console st) (invoked st ++ [i]) (uncaught st)).

Definition set_waiters (ws : list Waiter) (st : Endpoint) : Endpoint :=
  mkEndpoint (debug st) (source st) (origin st) (requestHandlers st)
    (eventHandlers st) ws (microtasks st) (posted st)
    (console st) (invoked st) (uncaught st).

Definition set_microtasks (js : list Job) (st : Endpoint) : Endpoint :=
  mkEndpoint (debug st) (source st) (origin st) (requestHandlers st)
    (eventHandlers st) (waiters st) js (posted st)
    (console st) (invoked st) (uncaught st).

Definition report (e : value) (st : Endpoint) : Endpoint :=
  mkEndpoint (debug st) (source st) (origin st) (requestHandlers st)
    (eventHandlers st) (waiters st) (microtasks st) (posted st)
    (console st) (invoked st) (uncaught st ++ [e]).

(** [Map.prototype.get] on a registry keyed by action strings: a key that
    is not a string finds nothing. *)
Definition registry_get (m : gmap string Handler) (key : value)
  : option (string * Handler) :=
  match key with
  | VStr a => match m !! a with
              | Some h => Some (a, h)
              | None => None
              end
  | _ => None
  end.

(** ** Error codec *)

Definition unknown_error : value :=
  VErr "Error" "Ocorreu um erro desconhecido. Veja o console".

Definition is_string (v : value) : bool :=
  String.eqb (Js.typeof v) "string".

(** The guard of [parseErrorPayload]'s second [if]. *)
Definition structured_shape (payload : value) : completion bool :=
  Normal (Js.not_nullish payload) &&>
  Normal (String.eqb (Js.typeof payload) "object") &&>
  Js.has "message" payload &&>
  match Js.get payload "message" with
  | Normal m => Normal (is_string m)
  | Throw e => Throw e
  end &&>
  Js.has "type" payload &&>
  match Js.get payload "type" with
  | Normal t => Normal (is_string t)
  | Throw e => Throw e
  end &&>
  Js.has "data" payload.

(** [new RequestError(message, type, data)] for a string [message]. *)
Definition new_RequestError (message type data : value) : completion value :=
  match Js.to_string message with
  | Normal m => Normal (VReqErr m type data)
  | Throw e => Throw e
  end.

Definition parseErrorPayload (payload : value) : JS value :=
  if Js.instanceof_Error payload then ret payload
  else
    let* shaped := lift (structured_shape payload) in
    if shaped then
      let* m := lift (Js.get payload "message") in
      let* t := lift (Js.get payload "type") in
      let* d := lift (Js.get payload "data") in
      lift (new_RequestError m t d)
    else
      console_write LError "Erro desconhecido" [payload] ;;;
      throw unknown_error.

Definition toErrorPayload (error : value) : completion value :=
  if Js.instanceof_RequestError error then
    match Js.get error "message", Js.get error "type", Js.get error "data" with
    | Normal m, Normal t, Normal d =>
        Normal (VObj [("message", m); ("type", t); ("data", d)])
    | Throw e, _, _ | _, Throw e, _ | _, _, Throw e => Throw e
    end
  else Normal error.

(** ** IframeMessenger *)

(** [new IframeMessenger({source})] in a window with no other listener. *)
Definition constructor (options_source : Win) : Endpoint :=
  mkEndpoint false options_source "*" ∅ ∅ [] [] [] [] [] [].

(** [resolve] and [reject] of the k-th waiter's promise: the first call
    settles it and schedules its [.finally]; later calls do nothing. *)
Definition settle (k : nat) (s : Settlement) : JS unit :=
  fun st =>
    match waiters st !! k with
    | Some (mkWaiter id Pending l) =>
        enqueue (JobFinally k)
          (set_waiters (<[k := mkWaiter id s l]> (waiters st)) st)
    | _ => (Normal tt, st)
    end.

(** [#receiveRequestResponse(id)]: the executor adds [callback] to the
    window's listeners; the waiter's index stands for the promise. *)
Definition receiveRequestResponse (id : string) : JS nat :=
  fun st =>
    (Normal (length (waiters st)),
     set_waiters (waiters st ++ [mkWaiter id Pending true]) st).

(** The [callback] closure of the k-th waiter, whose id is [id]. *)
Definition callback (k : nat) (id : string) (event : MessageEvent) : JS unit :=
  let data := ev_data event in
  let* is_resp := lift (isResponse data) in
  if is_resp then
    let* rid := lift (Js.get data "id") in
    if Js.strict_eq_string rid id then
      console_write LLog "event.data" [data] ;;;
      let* err := lift (Js.get data "error") in
      if Js.truthy err then
        let* payload := lift (Js.get data "payload") in
        let* e := parseErrorPayload payload in
        settle k (Rejected e)
      else
        let* payload := lift (Js.get data "payload") in
        settle k (Fulfilled payload)
    else ret tt
  else ret tt.

(** [sendRequest(action, payload)]. [id] is what [crypto.randomUUID()]
    returned. The body runs up to its [await] in the caller's turn: the
    waiter is armed first, then the request is posted. The promise the
    async function returns settles as the waiter's promise does
    ([postMessage] returns undefined, so [Promise.all] waits for the
    waiter alone); the index returned stands for it. *)
Definition sendRequest (id : string) (action : string) (payload : value)
  : JS nat :=
  let* k := receiveRequestResponse id in
  let message :=
    VObj [("id", VStr id); ("type", VStr messageTypeRequest);
          ("action", VStr action); ("payload", payload)] in
  let* o := (fun st => (Normal (origin st), st)) in
  postMessage message o ;;;
  ret k.

Definition registerRequestHandler (action : string) (handler : Handler)
  : JS unit :=
  console_write LLog "registerRequestHandler" [VStr action] ;;;
  fun st =>
    (Normal tt,
     mkEndpoint (debug st) (source st) (origin st)
       (<[action := handler]> (requestHandlers st))
       (eventHandlers st) (waiters st) (microtasks st) (posted st)
       (console st) (invoked st) (uncaught st)).

(** The source logs under the label of the request registry here too. *)
Definition registerEventsHandler (action : string) (handler : Handler)
  : JS unit :=
  console_write LLog "registerRequestHandler" [VStr action] ;;;
  fun st =>
    (Normal tt,
     mkEndpoint (debug st) (source st) (origin st) (requestHandlers st)
       (<[action := handler]> (eventHandlers st))
       (waiters st) (microtasks st) (posted st)
       (console st) (invoked st) (uncaught st)).

(** The [reply] closure of [#handleRequest]. *)
Definition reply (request : value) (payload error : value) : JS unit :=
  let* id := lift (Js.get request "id") in
  let response :=
    VObj [("id", id); ("type", VStr messageTypeResponse);
          ("payload", payload); ("error", error)] in
  let* o := (fun st => (Normal (origin st), st)) in
  postMessage response o.

Definition handleRequest (request : value) : JS unit :=
  let* action := lift (Js.get request "action") in
  let* handlers := (fun st => (Normal (requestHandlers st), st)) in
  match registry_get handlers action with
  | None =>
      console_write LWarn "Ação desconhecida para a requisição" [request] ;;;
      let* a := lift (Js.to_string action) in
      reply request (VErr "Error" ("Ação desconhecida: " ++ a)) (VBool true)
  | Some (a, handler) =>
      enqueue (JobHandlerChain a handler request)
  end.

(** [try { c } catch (err) { h err }], and a promise's [.catch]. *)
Definition catch {A} (c : JS A) (h : value -> JS A) : JS A :=
  fun st =>
    match c st with
    | (Normal a, st') => (Normal a, st')
    | (Throw e, st') => h e st'
    end.

(** The reactions queued by [#handleRequest], run in turn: call the
    handler with [request.payload]; then [reply(response)], the second
    argument left out; a failure of either step reaches the [.catch],
    which logs it and calls [reply(toErrorPayload(err), true)]. *)
Definition handler_chain (a : string) (handler : Handler) (request : value)
  : JS unit :=
  catch
    (let* payload := lift (Js.get request "payload") in
     record_call (mkInvocation OfRequest a payload) ;;;
     let* response := lift (handler payload) in
     reply request response VUndef)
    (fun err =>
       let* action := lift (Js.get request "action") in
       let* s := lift (Js.to_string action) in
       console_write LError ("Falha durante a ação da requisição " ++ s) [err] ;;;
       let* p := lift (toErrorPayload err) in
       reply request p (VBool true)).

Definition sendEvent (action : string) (payload : value) : JS unit :=
  let message :=
    VObj [("type", VStr messageTypeEvent); ("action", VStr action);
          ("payload", payload)] in
  let* o := (fun st => (Normal (origin st), st)) in
  postMessage message o.

Definition handleEvent (data : value) : JS unit :=
  let* action := lift (Js.get data "action") in
  let* payload := lift (Js.get data "payload") in
  let* _id := lift (Js.get data "id") in
  let* handlers := (fun st => (Normal (eventHandlers st), st)) in
  let* dbg := (fun st => (Normal (debug st), st)) in
  match registry_get handlers action with
  | None =>
      when dbg
        (let* s := lift (Js.to_string action) in
         console_write LLog ("Nenhum manipulador para a ação: " ++ s) [])
  | Some (a, handler) =>
      record_call (mkInvocation OfEvent a payload) ;;;
      match handler payload with
      | Normal _ => ret tt
      | Throw e => throw e
      end
  end.

(** [#messageHandler], the listener bound by the constructor. The stray
    expression statement [message.sourcem] reads an absent property of the
    event and has no effect. *)
Definition messageHandler (msg : MessageEvent) : JS unit :=
  let* bound := (fun st => (Normal (source st), st)) in
  match ev_source msg with
  | None => ret tt
  | Some src =>
      if negb (Nat.eqb src bound) then ret tt
      else
        let* dbg := (fun st => (Normal (debug st), st)) in
        when dbg
          (console_write LLog ("Mensagem da origem " ++ ev_origin msg ++ ":")
             [ev_data msg]) ;;;
        let data := ev_data msg in
        let* is_ev := lift (isEvent data) in
        when is_ev (handleEvent data) ;;;
        let* is_req := lift (isRequest data) in
        when is_req
          (console_write LLog "isRequest" [data] ;;;
           handleRequest data)
  end.

(** ** Event dispatch in the window *)

(** [window.removeEventListener("message", callback)] of the k-th waiter. *)
Definition detach (k : nat) (st : Endpoint) : Endpoint :=
  match waiters st !! k with
  | Some (mkWaiter id s _) =>
      set_waiters (<[k := mkWaiter id s false]> (waiters st)) st
  | None => st
  end.

(** A job whose promise ends rejected with no handler is reported by the
    host like an uncaught exception. *)
Definition run_job (j : Job) (st : Endpoint) : Endpoint :=
  match j with
  | JobHandlerChain a handler request =>
      match handler_chain a handler request st with
      | (Normal _, st') => st'
      | (Throw e, st') => report e st'
      end
  | JobFinally k => detach k st
  end.

Fixpoint run_jobs (js : list Job) (st : Endpoint) : Endpoint :=
  match js with
  | [] => st
  | j :: rest => run_jobs rest (run_job j st)
  end.

(** The microtask checkpoint the host performs when a listener returns. *)
Definition checkpoint (st : Endpoint) : Endpoint :=
  run_jobs (microtasks st) (set_microtasks [] st).

(** The host calls one listener: an exception it throws is reported and
    does not stop the dispatch; then the microtasks run. *)
Definition run_listener (l : JS unit) (st : Endpoint) : Endpoint :=
  match l st with
  | (Normal _, st') => checkpoint st'
  | (Throw e, st') => checkpoint (report e st')
  end.

(** The callbacks of the waiters numbered [k], [k+1], ... that are still
    listeners when their turn comes. *)
Fixpoint run_callbacks (k : nat) (n : nat) (event : MessageEvent)
  (st : Endpoint) : Endpoint :=
  match n with
  | O => st
  | S n' =>
      let st' :=
        match waiters st !! k with
        | Some (mkWaiter id _ true) => run_listener (callback k id event) st
        | _ => st
        end in
      run_callbacks (S k) n' event st'
  end.

(** Delivery of one message event to the window: [#messageHandler] was
    added first, by the constructor, then the callbacks of the waiters in
    the order of their calls; the listeners present when the dispatch
    starts are the ones called. *)
Definition deliver (event : MessageEvent) (st : Endpoint) : Endpoint :=
  let st1 := run_listener (messageHandler event) st in
  run_callbacks 0 (length (waiters st)) event st1.

(** The message event the peer's window sees for a posted message: the
    transport hands the data over unchanged and names the sender. The
    structured clone is the identity on plain data and on a native Error
    whose name is one of the standard ones; it is not on other errors. *)
Definition arrives (sender : Win) (sender_origin : string) (p : Posted)
  : MessageEvent :=
  mkEvent (Some sender) sender_origin (message p).

(** State after a statement, whatever its completion. *)
Definition exec {A} (c : JS A) (st : Endpoint) : Endpoint := snd (c st).

(** ** DashboardsService

    The two services built on the messenger. The module [constants.js]
    they import is not among the sources: its three exported action names
    are taken as a parameter. *)

Record Constants : Type := mkConstants {
  DASHBOARDS_REQUEST_IMAGES_FETCH : string;
  DASHBOARDS_EVENT_DATA_ON_CHANGE : string;
  DASHBOARDS_EVENT_ON_UPDATE : string;
}.

(** [new IframeDashboardsService(hostWindow)] and
    [new HostDashboardsService(iframeWindow)]: each holds one messenger
    bound to the window it is given. *)
Definition IframeDashboardsService (hostWindow : Win) : Endpoint :=
  constructor hostWindow.

Definition HostDashboardsService (iframeWindow : Win) : Endpoint :=
  constructor iframeWindow.

(** [IframeDashboardsService.handleFetchImages(handler)] *)
Definition handleFetchImages (c : Constants) (handler : Handler) : JS unit :=
  registerRequestHandler (DASHBOARDS_REQUEST_IMAGES_FETCH c) handler.

(** The [wrapper] closure of [IframeDashboardsService.onDataUpdate]:
    [JSON.parse] and the callback run inside a [try] whose [catch] logs.
    [JSON_parse] stands for the built-in, [callback] for the outcome of
    the function the service was given. *)
Definition onDataUpdate_wrapper (JSON_parse : value -> completion value)
    (callback : Handler) (data : value) : JS unit :=
  catch
    (let* parsedData := lift (JSON_parse data) in
     let* _r := lift (callback parsedData) in
     ret tt)
    (fun error => console_write LError "Erro ao analisar dados" [error]).

(** [IframeDashboardsService.notifyUpdate()]: [sendEvent] is called with
    the action alone, the payload parameter is undefined. *)
Definition notifyUpdate (c : Constants) : JS unit :=
  sendEvent (DASHBOARDS_EVENT_ON_UPDATE c) VUndef.

(** [HostDashboardsService.fetchImages()]: the payload is the empty
    object; [id] is the id [sendRequest] draws. *)
Definition fetchImages (c : Constants) (id : string) : JS nat :=
  let payload := VObj [] in
  sendRequest id (DASHBOARDS_REQUEST_IMAGES_FETCH c) payload.

(** [HostDashboardsService.onUpdate(callback)] *)
Definition onUpdate (c : Constants) (callback : Handler) : JS unit :=
  registerEventsHandler (DASHBOARDS_EVENT_ON_UPDATE c) callback.

(** * Notions used to state the properties *)

(** Between two message events the microtask queue is empty. *)
Definition quiescent (st : Endpoint) : Prop := microtasks st = [].

(** The completion of [parseErrorPayload], which depends on the payload
    alone. *)
Definition decode (payload : value) : completion value :=
  if Js.instanceof_Error payload then Normal payload
  else
    match structured_shape payload with
    | Normal true =>
        match Js.get payload "message", Js.get payload "type",
              Js.get payload "data" with
        | Normal m, Normal t, Normal d => new_RequestError m t d
        | Throw e, _, _ | _, Throw e, _ | _, _, Throw e => Throw e
        end
    | Normal false => Throw unknown_error
    | Throw e => Throw e
    end.

(** Fields the decoder and the per-call listeners never write. *)
Definition same_messenger (st st' : Endpoint) : Prop :=
  debug st' = debug st /\ source st' = source st /\ origin st' = origin st /\
  requestHandlers st' = requestHandlers st /\
  eventHandlers st' = eventHandlers st /\
  posted st' = posted st /\ invoked st' = invoked st.

(** The settlement [callback] asks for when it is given [data], if any. *)
Definition response_outcome (id : string) (data : value) : option Settlement :=
  match isResponse data with
  | Normal true =>
      match Js.get data "id" with
      | Normal rid =>
          if Js.strict_eq_string rid id then
            match Js.get data "error" with
            | Normal err =>
                match Js.get data "payload" with
                | Normal payload =>
                    if Js.truthy err then
                      match decode payload with
                      | Normal e => Some (Rejected e)
                      | Throw _ => None
                      end
                    else Some (Fulfilled payload)
                | Throw _ => None
                end
            | Throw _ => None
            end
          else None
      | Throw _ => None
      end
  | _ => None
  end.

(** A waiter after its own callback has seen [event]: settled and
    detached when the callback asked for a settlement and the promise was
    still pending, untouched otherwise. *)
Definition waiter_after (event : MessageEvent) (w : Waiter) : Waiter :=
  match w with
  | mkWaiter id Pending true =>
      match response_outcome id (ev_data event) with
      | Some s => mkWaiter id s false
      | None => w
      end
  | _ => w
  end.

(** Every run of [c] relates the state before to the state after. *)
Definition preserves {A} (R : Endpoint -> Endpoint -> Prop) (c : JS A) : Prop :=
  forall st, R st (snd (c st)).

(** The registries, the binding and the waiters: what [#messageHandler]
    and the reactions it queues leave alone. *)
Definition keeps_waiters (st st' : Endpoint) : Prop :=
  waiters st' = waiters st /\ debug st' = debug st /\
  source st' = source st /\ origin st' = origin st /\
  requestHandlers st' = requestHandlers st /\
  eventHandlers st' = eventHandlers st.

(** The jobs [#handleRequest] queues. *)
Definition is_chain (j : Job) : Prop :=
  match j with
  | JobHandlerChain _ _ _ => True
  | JobFinally _ => False
  end.

(** [#messageHandler] may queue handler chains and nothing else. *)
Definition queues_chains (st st' : Endpoint) : Prop :=
  keeps_waiters st st' /\
  exists js, microtasks st' = (microtasks st ++ js)%list /\ Forall is_chain js.

(** A handler chain queues nothing. *)
Definition queues_nothing (st st' : Endpoint) : Prop :=
  keeps_waiters st st' /\ microtasks st' = microtasks st.

(** The Request message [sendRequest] builds. *)
Definition request_of (id action : string) (payload : value) : value :=
  VObj [("id", VStr id); ("type", VStr messageTypeRequest);
        ("action", VStr action); ("payload", payload)].

(** The Response message [reply] builds for a request whose id is [id]. *)
Definition response_of (id : value) (payload error : value) : value :=
  VObj [("id", id); ("type", VStr messageTypeResponse);
        ("payload", payload); ("error", error)].

(** Sample windows used to exercise the theorems: window 1 binds window 2
    as its peer and the other way round. *)
Definition echo : Handler := fun p => Normal (VObj [("echo", p)]).

Definition refuse : Handler :=
  fun p => Throw (VReqErr "invalid" (VStr "VALIDATION") p).

Definition crash : Handler := fun _ => Throw (VErr "Error" "boom").

Definition requester : Endpoint := constructor 2.

Definition responder : Endpoint :=
  exec (registerEventsHandler "changed" crash)
    (exec (registerRequestHandler "refuse" refuse)
       (exec (registerRequestHandler "echo" echo) (constructor 1))).

(** [answer id r s]: the message [r] is a Response bearing [id], and [s]
    is what its own fields ask for: fulfilment with its payload when its
    error field is falsy, rejection with the decoded payload when the
    field is truthy and the payload decodes. *)
Definition answer (id : string) (r : value) (s : Settlement) : Prop :=
  isResponse r = Normal true /\
  Js.get r "id" = Normal (VStr id) /\
  exists err p,
    Js.get r "error" = Normal err /\
    Js.get r "payload" = Normal p /\
    ((Js.truthy err = false /\ s = Fulfilled p) \/
     (Js.truthy err = true /\
      exists e, (forall st, fst (parseErrorPayload p st) = Normal e) /\
                s = Rejected e)).

(** The Event message [sendEvent] builds. *)
Definition event_of (action : string) (payload : value) : value :=
  VObj [("type", VStr messageTypeEvent); ("action", VStr action);
        ("payload", payload)].

(** The window receives the message events of a list one after the
    other. *)
Definition deliver_all (events : list MessageEvent) (st : Endpoint) : Endpoint :=
  fold_left (fun s e => deliver e s) events st.

(** A predicate answered [true]. *)
Definition accepts (c : completion bool) : bool :=
  match c with
  | Normal true => true
  | _ => false
  end.

(** The message [event] is a Response bearing [id]. *)
Definition bears (id : string) (data : value) : Prop :=
  isResponse data = Normal true /\
  exists rid, Js.get data "id" = Normal rid /\
              Js.strict_eq_string rid id = true.

(** The primitive values. *)
Definition is_primitive (v : value) : bool :=
  match v with
  | VUndef | VNull | VBool _ | VNum _ | VStr _ => true
  | VObj _ | VErr _ _ | VReqErr _ _ _ => false
  end.

(** The integers a Number holds exactly and prints in plain decimal. *)
Definition safe_integer (z : Z) : Prop := (Z.abs z <= 9007199254740991)%Z.

(** The error names the structured clone keeps; any other name arrives
    as ["Error"]. *)
Definition standard_error_names : list string :=
  [ "Error"; "EvalError"; "RangeError"; "ReferenceError"; "SyntaxError";
    "TypeError"; "URIError" ].

(** Sample constants for the services. *)
Definition sample_constants : Constants :=
  mkConstants "dashboards:images:fetch" "dashboards:data:change"
    "dashboards:update".

(** * Properties *)

(** ** The predicates on sample values *)

Example isRequest_sample :
  isRequest (VObj [("id", VStr "1"); ("type", VStr "IFRAME-MESSAGE-REQUEST");
                   ("action", VStr "Ação"); ("payload", VNull)]) = Normal true.
Proof. reflexivity. Qed.

Example isRequest_null : isRequest VNull = Normal false.
Proof. reflexivity. Qed.

Example isResponse_num : isResponse (VNum 3) = Normal false.
Proof. reflexivity. Qed.

(** Case analysis on every scrutinee in the goal. *)
Ltac split_cases :=
  repeat match goal with
         | |- context [match ?x with _ => _ end] => destruct x; simpl
         end.

(** ** The message predicates *)

(** [isRequest] and [isEvent] answer with a boolean on every value: the
    guards in front keep [in] and the property read away from primitives
    and from [null]. *)
Lemma isRequest_total v : exists b, isRequest v = Normal b.
Proof.
  unfold isRequest, Js.and_then.
  destruct v; simpl; split_cases; eauto.
Qed.

Lemma isEvent_total v : exists b, isEvent v = Normal b.
Proof.
  unfold isEvent, Js.and_then.
  destruct v; simpl; split_cases; eauto.
Qed.

(** What a value accepted by [isRequest] or [isEvent] has. *)
Lemma isRequest_shape v :
  isRequest v = Normal true ->
  Js.has "id" v = Normal true /\ Js.has "action" v = Normal true /\
  Js.get v "type" = Normal (VStr messageTypeRequest).
Proof.
  unfold isRequest, Js.and_then.
  destruct v; simpl; try discriminate.
  - destruct (Js.own props "id"); simpl; try discriminate.
    destruct (Js.own props "action"); simpl; try discriminate.
    destruct (Js.own props "type") as [[]|]; simpl; try discriminate.
    intros H. injection H as H. apply String.eqb_eq in H. subst s.
    repeat split.
Qed.

Lemma isEvent_shape v :
  isEvent v = Normal true ->
  Js.has "action" v = Normal true /\
  Js.get v "type" = Normal (VStr messageTypeEvent).
Proof.
  unfold isEvent, Js.and_then.
  destruct v; simpl; try discriminate.
  - destruct (Js.own props "action"); simpl; try discriminate.
    destruct (Js.own props "type") as [[]|]; simpl; try discriminate.
    intros H. injection H as H. apply String.eqb_eq in H. subst s.
    repeat split.
Qed.

(** A message is of one kind at most. *)
Lemma request_is_not_event v :
  isRequest v = Normal true -> isEvent v = Normal false.
Proof.
  intros H. destruct (isRequest_shape v H) as (_ & Ha & Ht).
  destruct v; try discriminate.
  unfold isEvent, Js.and_then. simpl in *.
  destruct (Js.own props "action"); simpl; [|reflexivity].
  destruct (Js.own props "type") as [t|]; simpl; [|reflexivity].
  injection Ht as ->. reflexivity.
Qed.

(** ** The window between two message events *)

Lemma set_microtasks_quiescent st :
  quiescent st -> set_microtasks [] st = st.
Proof. destruct st; unfold quiescent; simpl; intros ->; reflexivity. Qed.

Lemma checkpoint_quiescent st : quiescent st -> checkpoint st = st.
Proof.
  intros Hq. unfold checkpoint. rewrite set_microtasks_quiescent by exact Hq.
  rewrite Hq. reflexivity.
Qed.

Lemma constructor_quiescent w : quiescent (constructor w).
Proof. reflexivity. Qed.

Lemma sendRequest_quiescent id action payload st :
  quiescent st -> quiescent (exec (sendRequest id action payload) st).
Proof. intros Hq. exact Hq. Qed.

Lemma registerRequestHandler_quiescent a h st :
  quiescent st -> quiescent (exec (registerRequestHandler a h) st).
Proof. intros Hq. exact Hq. Qed.

Lemma registerEventsHandler_quiescent a h st :
  quiescent st -> quiescent (exec (registerEventsHandler a h) st).
Proof. intros Hq. exact Hq. Qed.

(** What [sendRequest] leaves behind: one more waiter, armed, and one more
    posted message. *)
Lemma sendRequest_handle id action payload st :
  fst (sendRequest id action payload st) = Normal (length (waiters st)).
Proof. reflexivity. Qed.

Lemma sendRequest_waiters id action payload st :
  waiters (exec (sendRequest id action payload) st)
  = (waiters st ++ [mkWaiter id Pending true])%list.
Proof. reflexivity. Qed.

Lemma sendRequest_posted id action payload st :
  posted (exec (sendRequest id action payload) st)
  = (posted st ++
     [mkPosted (VObj [("id", VStr id); ("type", VStr messageTypeRequest);
                      ("action", VStr action); ("payload", payload)])
        (origin st)])%list.
Proof. reflexivity. Qed.

Lemma sendRequest_waiter id action payload st :
  waiters (exec (sendRequest id action payload) st) !! length (waiters st)
  = Some (mkWaiter id Pending true).
Proof.
  rewrite sendRequest_waiters, lookup_app_r by lia.
  rewrite Nat.sub_diag. reflexivity.
Qed.

(** ** The decoder's answer does not depend on the window *)

Lemma parseErrorPayload_decode payload st :
  fst (parseErrorPayload payload st) = decode payload.
Proof.
  unfold parseErrorPayload, decode.
  destruct (Js.instanceof_Error payload); [reflexivity|].
  unfold bind, lift.
  destruct (structured_shape payload) as [[|]|e]; try reflexivity.
  destruct (Js.get payload "message"); [|reflexivity].
  destruct (Js.get payload "type"); [|reflexivity].
  destruct (Js.get payload "data"); [|reflexivity].
  simpl. destruct (new_RequestError _ _ _); reflexivity.
Qed.

Lemma same_messenger_refl st : same_messenger st st.
Proof. repeat split. Qed.

Lemma same_messenger_trans a b c :
  same_messenger a b -> same_messenger b c -> same_messenger a c.
Proof.
  unfold same_messenger. intros (?&?&?&?&?&?&?) (?&?&?&?&?&?&?).
  repeat split; congruence.
Qed.

Lemma parseErrorPayload_frame payload st :
  let st' := snd (parseErrorPayload payload st) in
  same_messenger st st' /\ waiters st' = waiters st /\
  microtasks st' = microtasks st.
Proof.
  cbv zeta. unfold parseErrorPayload, bind, lift, ret, throw, console_write.
  split_cases; repeat split.
Qed.

(** ** What a per-call listener does to its own waiter *)

Section Callback.

#[local] Arguments settle : simpl never.

Lemma callback_cases k id event st :
  match response_outcome id (ev_data event) with
  | Some s =>
      exists stc, callback k id event st = settle k s stc /\
                  same_messenger st stc /\ waiters stc = waiters st /\
                  microtasks stc = microtasks st
  | None =>
      let st' := snd (callback k id event st) in
      same_messenger st st' /\ waiters st' = waiters st /\
      microtasks st' = microtasks st
  end.
Proof.
  unfold response_outcome, callback, decode, parseErrorPayload,
    bind, lift, ret, throw, console_write.
  destruct (isResponse (ev_data event)) as [[|]|]; simpl;
    try (repeat split; fail).
  destruct (Js.get (ev_data event) "id") as [rid|]; simpl;
    try (repeat split; fail).
  destruct (Js.strict_eq_string rid id); simpl; try (repeat split; fail).
  destruct (Js.get (ev_data event) "error") as [err|]; simpl;
    try (repeat split; fail).
  destruct (Js.get (ev_data event) "payload") as [payload|]; simpl.
  2: { destruct (Js.truthy err); simpl; repeat split. }
  destruct (Js.truthy err); simpl.
  2: { eexists; split; [reflexivity|]. repeat split. }
  destruct (Js.instanceof_Error payload); simpl.
  { eexists; split; [reflexivity|]. repeat split. }
  destruct (structured_shape payload) as [[|]|]; simpl;
    try (repeat split; fail).
  destruct (Js.get payload "message"); simpl; try (repeat split; fail).
  destruct (Js.get payload "type"); simpl; try (repeat split; fail).
  destruct (Js.get payload "data"); simpl; try (repeat split; fail).
  destruct (new_RequestError _ _ _); simpl; try (repeat split; fail).
  eexists; split; [reflexivity|]. repeat split.
Qed.

End Callback.

Lemma settle_pending k s id l st :
  waiters st !! k = Some (mkWaiter id Pending l) ->
  quiescent st ->
  let st' := run_listener (settle k s) st in
  same_messenger st st' /\ quiescent st' /\
  console st' = console st /\ uncaught st' = uncaught st /\
  waiters st' = <[k := mkWaiter id s false]> (waiters st).
Proof.
  intros Hk Hq. cbv zeta.
  assert (Hlt : k < length (waiters st)) by (eapply lookup_lt_Some; eauto).
  destruct st as [d src o rh eh ws mt ps cs inv unc].
  unfold quiescent in Hq. simpl in *. subst mt.
  unfold run_listener, settle, enqueue, set_waiters, checkpoint. simpl.
  rewrite Hk. simpl. unfold detach. simpl.
  rewrite list_lookup_insert_eq by exact Hlt. simpl.
  rewrite list_insert_insert_eq.
  repeat split.
Qed.

Lemma settle_settled k s w st :
  waiters st !! k = Some w -> w_state w <> Pending ->
  settle k s st = (Normal tt, st).
Proof.
  intros Hk Hs. unfold settle. rewrite Hk.
  destruct w as [id [| |] l]; try reflexivity. contradiction.
Qed.

Lemma report_frame e st :
  same_messenger st (report e st) /\ waiters (report e st) = waiters st /\
  microtasks (report e st) = microtasks st.
Proof. repeat split. Qed.

Lemma callback_step k id s event st :
  quiescent st ->
  waiters st !! k = Some (mkWaiter id s true) ->
  let st' := run_listener (callback k id event) st in
  same_messenger st st' /\ quiescent st' /\
  waiters st' = <[k := waiter_after event (mkWaiter id s true)]> (waiters st).
Proof.
  intros Hq Hk. cbv zeta.
  pose proof (callback_cases k id event st) as Hc.
  unfold waiter_after.
  destruct (response_outcome id (ev_data event)) as [s'|].
  - destruct Hc as (stc & Heq & Hsame & Hw & Hm).
    assert (Hrun : run_listener (callback k id event) st
                   = run_listener (settle k s') stc)
      by (unfold run_listener; rewrite Heq; reflexivity).
    rewrite Hrun.
    assert (Hqc : quiescent stc) by (unfold quiescent; congruence).
    assert (Hs : s = Pending \/ s <> Pending)
      by (destruct s; [left; reflexivity | right; discriminate ..]).
    destruct Hs as [->|Hne].
    + destruct (settle_pending k s' id true stc) as (H1 & H2 & _ & _ & H3);
        [congruence | exact Hqc |].
      split; [eapply same_messenger_trans; eauto|].
      split; [exact H2|]. rewrite H3, Hw. reflexivity.
    + unfold run_listener.
      rewrite (settle_settled k s' (mkWaiter id s true) stc)
        by (simpl; congruence).
      rewrite checkpoint_quiescent by exact Hqc.
      split; [exact Hsame|]. split; [exact Hqc|].
      rewrite Hw, list_insert_id; [reflexivity|].
      rewrite Hk. destruct s; try reflexivity. contradiction.
  - cbv zeta in Hc. destruct Hc as (Hsame & Hw & Hm).
    unfold run_listener.
    destruct (callback k id event st) as [[u|e] st1]; simpl in *.
    + assert (Hq1 : quiescent st1) by (unfold quiescent; congruence).
      rewrite checkpoint_quiescent by exact Hq1.
      split; [exact Hsame|]. split; [exact Hq1|].
      rewrite Hw, list_insert_id; [reflexivity|].
      rewrite Hk. destruct s; reflexivity.
    + assert (Hq1 : quiescent (report e st1)) by (unfold quiescent; simpl; congruence).
      rewrite checkpoint_quiescent by exact Hq1.
      split; [eapply same_messenger_trans; [exact Hsame|apply report_frame]|].
      split; [exact Hq1|].
      simpl. rewrite Hw, list_insert_id; [reflexivity|].
      rewrite Hk. destruct s; reflexivity.
Qed.

(** The callbacks of the waiters [k .. k+n) each act on their own waiter. *)
Lemma run_callbacks_spec n : forall k event st,
  quiescent st ->
  let st' := run_callbacks k n event st in
  same_messenger st st' /\ quiescent st' /\
  forall i, waiters st' !! i =
            if decide (k <= i < k + n)
            then waiter_after event <$> waiters st !! i
            else waiters st !! i.
Proof.
  induction n as [|n IH]; intros k event st Hq; cbv zeta.
  - simpl. split; [apply same_messenger_refl|]. split; [exact Hq|].
    intros i. destruct (decide _); [lia|reflexivity].
  - simpl.
    set (st1 := match waiters st !! k with
                | Some (mkWaiter id _ true) =>
                    run_listener (callback k id event) st
                | _ => st
                end).
    assert (H1 : same_messenger st st1 /\ quiescent st1 /\
                 forall i, waiters st1 !! i =
                           if decide (i = k)
                           then waiter_after event <$> waiters st !! i
                           else waiters st !! i).
    { subst st1. destruct (waiters st !! k) as [[id s [|]]|] eqn:Hk.
      - destruct (callback_step k id s event st Hq Hk) as (Ha & Hb & Hc).
        split; [exact Ha|]. split; [exact Hb|].
        intros i. rewrite Hc. destruct (decide (i = k)) as [->|Hne].
        + rewrite Hk. simpl. apply list_lookup_insert_eq.
          eapply lookup_lt_Some; eauto.
        + apply list_lookup_insert_ne. congruence.
      - split; [apply same_messenger_refl|]. split; [exact Hq|].
        intros i. destruct (decide (i = k)) as [->|Hne]; [|reflexivity].
        rewrite Hk. simpl. destruct s; reflexivity.
      - split; [apply same_messenger_refl|]. split; [exact Hq|].
        intros i. destruct (decide (i = k)) as [->|Hne]; [|reflexivity].
        rewrite Hk. reflexivity. }
    destruct H1 as (Ha & Hb & Hc).
    destruct (IH (S k) event st1 Hb) as (Ha' & Hb' & Hc').
    split; [eapply same_messenger_trans; eauto|]. split; [exact Hb'|].
    intros i. rewrite Hc', !Hc.
    destruct (decide (S k <= i < S k + n)), (decide (i = k)),
      (decide (k <= i < k + S n)); try lia; reflexivity.
Qed.

(** ** Frame reasoning for statements *)

Section Preserves.

Variable R : Endpoint -> Endpoint -> Prop.
Hypothesis R_refl : forall st, R st st.
Hypothesis R_trans : forall a b c, R a b -> R b c -> R a c.

Lemma preserves_ret {A} (a : A) : preserves R (ret a).
Proof. intros st. apply R_refl. Qed.

Lemma preserves_throw {A} e : preserves R (@throw A e).
Proof. intros st. apply R_refl. Qed.

Lemma preserves_lift {A} (c : completion A) : preserves R (lift c).
Proof. intros st. apply R_refl. Qed.

Lemma preserves_read {A} (f : Endpoint -> A) :
  preserves R (fun st => (Normal (f st), st)).
Proof. intros st. apply R_refl. Qed.

Lemma preserves_bind {A B} (c : JS A) (k : A -> JS B) :
  preserves R c -> (forall a, preserves R (k a)) -> preserves R (bind c k).
Proof.
  intros Hc Hk st. unfold bind. specialize (Hc st).
  destruct (c st) as [[a|e] st1]; simpl in *; [|exact Hc].
  eapply R_trans; [exact Hc|apply Hk].
Qed.

Lemma preserves_when b (c : JS unit) :
  preserves R c -> preserves R (when b c).
Proof. intros Hc. destruct b; [exact Hc|apply preserves_ret]. Qed.

Lemma preserves_catch {A} (c : JS A) (h : value -> JS A) :
  preserves R c -> (forall e, preserves R (h e)) -> preserves R (catch c h).
Proof.
  intros Hc Hh st. unfold catch. specialize (Hc st).
  destruct (c st) as [[a|e] st1]; simpl in *; [exact Hc|].
  eapply R_trans; [exact Hc|apply Hh].
Qed.

End Preserves.

Lemma keeps_waiters_refl st : keeps_waiters st st.
Proof. repeat split. Qed.

Lemma keeps_waiters_trans a b c :
  keeps_waiters a b -> keeps_waiters b c -> keeps_waiters a c.
Proof.
  unfold keeps_waiters. intros (?&?&?&?&?&?) (?&?&?&?&?&?).
  repeat split; congruence.
Qed.

Lemma queues_chains_refl st : queues_chains st st.
Proof.
  split; [apply keeps_waiters_refl|]. exists []. split; [|constructor].
  symmetry. apply app_nil_r.
Qed.

Lemma queues_chains_trans a b c :
  queues_chains a b -> queues_chains b c -> queues_chains a c.
Proof.
  intros (Hk1 & js1 & H1 & F1) (Hk2 & js2 & H2 & F2).
  split; [eapply keeps_waiters_trans; eauto|].
  exists (js1 ++ js2)%list. split; [|apply Forall_app; auto].
  rewrite H2, H1. symmetry. apply app_assoc.
Qed.

Lemma queues_nothing_refl st : queues_nothing st st.
Proof. split; [apply keeps_waiters_refl|reflexivity]. Qed.

Lemma queues_nothing_trans a b c :
  queues_nothing a b -> queues_nothing b c -> queues_nothing a c.
Proof.
  intros (Hk1 & H1) (Hk2 & H2).
  split; [eapply keeps_waiters_trans; eauto|congruence].
Qed.

Lemma queues_nothing_chains st st' :
  queues_nothing st st' -> queues_chains st st'.
Proof.
  intros (Hk & Hm). split; [exact Hk|]. exists []. split; [|constructor].
  rewrite Hm. symmetry. apply app_nil_r.
Qed.

Lemma console_write_nothing l t d : preserves queues_nothing (console_write l t d).
Proof. intros st. repeat split. Qed.

Lemma postMessage_nothing m o : preserves queues_nothing (postMessage m o).
Proof. intros st. repeat split. Qed.

Lemma record_call_nothing i : preserves queues_nothing (record_call i).
Proof. intros st. repeat split. Qed.

Lemma enqueue_chain a h r : preserves queues_chains (enqueue (JobHandlerChain a h r)).
Proof.
  intros st. split; [repeat split|].
  exists [JobHandlerChain a h r]. split; [reflexivity|].
  constructor; [exact I|constructor].
Qed.

(** Break a statement down to its primitive steps. *)
Ltac frame_with refl trans :=
  repeat first
    [ apply (preserves_ret _ refl)
    | apply (preserves_throw _ refl)
    | apply (preserves_lift _ refl)
    | apply (preserves_read _ refl)
    | apply (preserves_when _ refl)
    | apply (preserves_bind _ trans); [|intros ?]
    | apply (preserves_catch _ trans); [|intros ?]
    | match goal with
      | |- preserves _ (match ?x with _ => _ end) => destruct x
      end ].

Lemma reply_nothing request payload error :
  preserves queues_nothing (reply request payload error).
Proof.
  unfold reply.
  frame_with queues_nothing_refl queues_nothing_trans.
  apply postMessage_nothing.
Qed.

Lemma handler_chain_nothing a h request :
  preserves queues_nothing (handler_chain a h request).
Proof.
  unfold handler_chain.
  frame_with queues_nothing_refl queues_nothing_trans;
    first [apply record_call_nothing | apply postMessage_nothing
          | apply console_write_nothing].
Qed.

Lemma handleRequest_chains request : preserves queues_chains (handleRequest request).
Proof.
  unfold handleRequest, reply.
  frame_with queues_chains_refl queues_chains_trans;
    first [ apply enqueue_chain
          | intros st; apply queues_nothing_chains;
            first [apply console_write_nothing | apply postMessage_nothing] ].
Qed.

Lemma handleEvent_chains data : preserves queues_chains (handleEvent data).
Proof.
  unfold handleEvent.
  frame_with queues_chains_refl queues_chains_trans;
    intros st; apply queues_nothing_chains;
    first [apply console_write_nothing | apply record_call_nothing].
Qed.

Lemma messageHandler_chains msg : preserves queues_chains (messageHandler msg).
Proof.
  unfold messageHandler.
  frame_with queues_chains_refl queues_chains_trans;
    first [ apply handleEvent_chains
          | apply handleRequest_chains
          | apply enqueue_chain
          | intros st; apply queues_nothing_chains;
            first [ apply console_write_nothing | apply postMessage_nothing
                  | apply record_call_nothing ] ].
Qed.

Lemma run_job_chain j st :
  is_chain j -> queues_nothing st (run_job j st).
Proof.
  destruct j as [a h r|k]; [intros _|intros []].
  unfold run_job. pose proof (handler_chain_nothing a h r st) as H.
  destruct (handler_chain a h r st) as [[u|e] st1]; simpl in H; [exact H|].
  eapply queues_nothing_trans; [exact H|]. repeat split.
Qed.

Lemma run_jobs_chains js : forall st,
  Forall is_chain js -> queues_nothing st (run_jobs js st).
Proof.
  induction js as [|j js IH]; intros st Hjs; simpl.
  - apply queues_nothing_refl.
  - inversion Hjs as [|? ? Hj Hrest]; subst.
    eapply queues_nothing_trans; [apply run_job_chain; exact Hj|].
    apply IH. exact Hrest.
Qed.

(** [#messageHandler] and the reactions it queues never touch a waiter,
    whatever the message, and leave the window quiescent. *)
Lemma messageHandler_step msg st :
  quiescent st ->
  let st' := run_listener (messageHandler msg) st in
  keeps_waiters st st' /\ quiescent st'.
Proof.
  intros Hq. cbv zeta. unfold run_listener.
  pose proof (messageHandler_chains msg st) as H.
  assert (Hcp : forall s1, queues_chains st s1 ->
            keeps_waiters st (checkpoint s1) /\ quiescent (checkpoint s1)).
  { intros s1 (Hk & js & Hm & Hjs). rewrite Hq in Hm. simpl in Hm.
    unfold checkpoint. rewrite Hm.
    destruct (run_jobs_chains js (set_microtasks [] s1) Hjs) as (Hk' & Hm').
    split; [|exact Hm'].
    eapply keeps_waiters_trans; [exact Hk|].
    eapply keeps_waiters_trans; [|exact Hk']. repeat split. }
  destruct (messageHandler msg st) as [[u|e] st1]; simpl in H.
  - apply Hcp. exact H.
  - apply Hcp. eapply queues_chains_trans; [exact H|].
    apply queues_nothing_chains. repeat split.
Qed.

(** Delivery acts on each waiter by its own callback, and on nothing
    else of the waiters. *)
Lemma deliver_waiters event st i :
  quiescent st ->
  waiters (deliver event st) !! i = waiter_after event <$> waiters st !! i.
Proof.
  intros Hq. unfold deliver.
  destruct (messageHandler_step event st Hq) as ((Hw & _) & Hq1).
  destruct (run_callbacks_spec (length (waiters st)) 0 event _ Hq1)
    as (_ & _ & H).
  rewrite H, Hw.
  destruct (decide (0 <= i < 0 + length (waiters st))) as [_|Hge];
    [reflexivity|].
  rewrite lookup_ge_None_2 by lia. reflexivity.
Qed.

Lemma deliver_quiescent event st :
  quiescent st -> quiescent (deliver event st).
Proof.
  intros Hq. unfold deliver.
  destruct (messageHandler_step event st Hq) as (_ & Hq1).
  apply (run_callbacks_spec (length (waiters st)) 0 event _ Hq1).
Qed.

(** A message that is not a Response leaves every per-call listener idle. *)
Lemma run_callbacks_idle n : forall k event st,
  isResponse (ev_data event) = Normal false ->
  quiescent st ->
  run_callbacks k n event st = st.
Proof.
  induction n as [|n IH]; intros k event st Hr Hq; simpl; [reflexivity|].
  destruct (waiters st !! k) as [[id s [|]]|]; try (apply IH; assumption).
  assert (Hst : run_listener (callback k id event) st = st).
  { unfold run_listener, callback, bind, lift. rewrite Hr. simpl.
    apply checkpoint_quiescent. exact Hq. }
  rewrite Hst. apply IH; assumption.
Qed.

(** ** The responder's side of a request *)

Lemma toErrorPayload_total err : exists p, toErrorPayload err = Normal p.
Proof. destruct err; simpl; eauto. Qed.

Lemma request_not_response id action payload :
  isResponse (request_of id action payload) = Normal false.
Proof. reflexivity. Qed.

(** Run [#messageHandler] and its reactions on a request from the bound
    peer, in a window whose fields are laid out. *)
Ltac run_request Hh :=
  unfold run_listener, messageHandler, bind; simpl;
  rewrite Nat.eqb_refl; simpl;
  match goal with
  | |- context [when ?d _] => destruct d
  end; simpl;
  unfold handleRequest, bind, lift; simpl;
  rewrite Hh; simpl;
  unfold checkpoint; simpl;
  unfold handler_chain, catch, bind, lift; simpl.

Lemma deliver_request_ok B sender o id action payload (h : Handler) v :
  quiescent B ->
  source B = sender ->
  requestHandlers B !! action = Some h ->
  h payload = Normal v ->
  let B1 := deliver (mkEvent (Some sender) o (request_of id action payload)) B in
  invoked B1 = (invoked B ++ [mkInvocation OfRequest action payload])%list /\
  posted B1 = (posted B ++ [mkPosted (response_of (VStr id) v VUndef) (origin B)])%list /\
  uncaught B1 = uncaught B /\ waiters B1 = waiters B.
Proof.
  intros Hq Hsrc Hh Hv. cbv zeta. unfold deliver.
  rewrite run_callbacks_idle;
    [| apply request_not_response
     | apply messageHandler_step; exact Hq ].
  destruct B as [d src og rh eh ws mt ps cs inv unc].
  unfold quiescent in Hq. cbn [microtasks source requestHandlers] in Hq, Hsrc, Hh.
  subst mt src. cbn [invoked posted uncaught waiters origin].
  run_request Hh; rewrite Hv; simpl; repeat split.
Qed.

Lemma deliver_request_fail B sender o id action payload (h : Handler) err p :
  quiescent B ->
  source B = sender ->
  requestHandlers B !! action = Some h ->
  h payload = Throw err ->
  toErrorPayload err = Normal p ->
  let B1 := deliver (mkEvent (Some sender) o (request_of id action payload)) B in
  invoked B1 = (invoked B ++ [mkInvocation OfRequest action payload])%list /\
  posted B1 = (posted B ++ [mkPosted (response_of (VStr id) p (VBool true)) (origin B)])%list /\
  uncaught B1 = uncaught B /\ waiters B1 = waiters B.
Proof.
  intros Hq Hsrc Hh Hv Hp. cbv zeta. unfold deliver.
  rewrite run_callbacks_idle;
    [| apply request_not_response
     | apply messageHandler_step; exact Hq ].
  destruct B as [d src og rh eh ws mt ps cs inv unc].
  unfold quiescent in Hq. cbn [microtasks source requestHandlers] in Hq, Hsrc, Hh.
  subst mt src. cbn [invoked posted uncaught waiters origin].
  run_request Hh; rewrite Hv; simpl; rewrite Hp; simpl; repeat split.
Qed.

Lemma deliver_request_unknown B sender o id action payload :
  quiescent B ->
  source B = sender ->
  requestHandlers B !! action = None ->
  let B1 := deliver (mkEvent (Some sender) o (request_of id action payload)) B in
  invoked B1 = invoked B /\
  posted B1 =
    (posted B ++
     [mkPosted (response_of (VStr id)
                  (VErr "Error" ("Ação desconhecida: " ++ action)) (VBool true))
        (origin B)])%list /\
  uncaught B1 = uncaught B /\ waiters B1 = waiters B.
Proof.
  intros Hq Hsrc Hh. cbv zeta. unfold deliver.
  rewrite run_callbacks_idle;
    [| apply request_not_response
     | apply messageHandler_step; exact Hq ].
  destruct B as [d src og rh eh ws mt ps cs inv unc].
  unfold quiescent in Hq. cbn [microtasks source requestHandlers] in Hq, Hsrc, Hh.
  subst mt src. cbn [invoked posted uncaught waiters origin].
  run_request Hh; repeat split.
Qed.

(** ** The requester's side of a response *)

Lemma response_outcome_success id v :
  response_outcome id (response_of (VStr id) v VUndef) = Some (Fulfilled v).
Proof.
  unfold response_outcome. simpl. rewrite String.eqb_refl. reflexivity.
Qed.

Lemma response_outcome_error id p :
  response_outcome id (response_of (VStr id) p (VBool true))
  = match decode p with
    | Normal e => Some (Rejected e)
    | Throw _ => None
    end.
Proof.
  unfold response_outcome. simpl. rewrite String.eqb_refl. reflexivity.
Qed.

Lemma decode_structured msg ty data :
  decode (VObj [("message", VStr msg); ("type", VStr ty); ("data", data)])
  = Normal (VReqErr msg (VStr ty) data).
Proof. reflexivity. Qed.

(** The waiter of a call just made, after the next delivery. *)
Lemma sendRequest_then_deliver id action payload event st :
  quiescent st ->
  waiters (deliver event (exec (sendRequest id action payload) st))
    !! length (waiters st)
  = Some (match response_outcome id (ev_data event) with
          | Some s => mkWaiter id s false
          | None => mkWaiter id Pending true
          end).
Proof.
  intros Hq.
  rewrite deliver_waiters by (apply sendRequest_quiescent; exact Hq).
  rewrite sendRequest_waiter. reflexivity.
Qed.

(** C1. When the peer has a request handler [h] registered for action
    [A], a request [sendRequest(A, P)] that reaches it makes the peer call
    [h] once, with [P], and post one Response whose payload is the value
    [h] returned; when that Response reaches the caller, the caller's
    awaitable is fulfilled with that same value. *)
Theorem request_round_trip (A B : Endpoint) (o_a o_b : string) (w_b : Win)
    (id action : string) (payload : value) (h : Handler) (v : value) :
  quiescent A -> quiescent B ->
  requestHandlers B !! action = Some h ->
  h payload = Normal v ->
  let k := length (waiters A) in
  let A1 := exec (sendRequest id action payload) A in
  exists request response,
    fst (sendRequest id action payload A) = Normal k /\
    posted A1 = (posted A ++ [request])%list /\
    let B1 := deliver (arrives (source B) o_a request) B in
    invoked B1 = (invoked B ++ [mkInvocation OfRequest action payload])%list /\
    posted B1 = (posted B ++ [response])%list /\
    isResponse (message response) = Normal true /\
    Js.get (message response) "payload" = Normal v /\
    let A2 := deliver (arrives w_b o_b response) A1 in
    waiters A2 !! k = Some (mkWaiter id (Fulfilled v) false).
Proof.
  intros HqA HqB Hh Hv. cbv zeta.
  exists (mkPosted (request_of id action payload) (origin A)),
         (mkPosted (response_of (VStr id) v VUndef) (origin B)).
  destruct (deliver_request_ok B (source B) o_a id action payload h v
              HqB eq_refl Hh Hv) as (Hi & Hp & _ & _).
  split; [reflexivity|]. split; [reflexivity|].
  split; [exact Hi|]. split; [exact Hp|].
  split; [reflexivity|]. split; [reflexivity|].
  rewrite sendRequest_then_deliver by exact HqA.
  unfold arrives. simpl. rewrite response_outcome_success. reflexivity.
Qed.

Lemma request_round_trip_witness :
  (quiescent requester /\ quiescent responder /\
   requestHandlers responder !! "echo" = Some echo /\
   echo (VNum 7) = Normal (VObj [("echo", VNum 7)])) /\
  exists request response,
    fst (sendRequest "id-1" "echo" (VNum 7) requester) = Normal 0 /\
    posted (exec (sendRequest "id-1" "echo" (VNum 7)) requester)
    = (posted requester ++ [request])%list /\
    invoked (deliver (arrives (source responder) "http://host" request) responder)
    = (invoked responder ++ [mkInvocation OfRequest "echo" (VNum 7)])%list /\
    posted (deliver (arrives (source responder) "http://host" request) responder)
    = (posted responder ++ [response])%list /\
    isResponse (message response) = Normal true /\
    Js.get (message response) "payload" = Normal (VObj [("echo", VNum 7)]) /\
    waiters (deliver (arrives 2 "http://frame" response)
               (exec (sendRequest "id-1" "echo" (VNum 7)) requester)) !! 0
    = Some (mkWaiter "id-1" (Fulfilled (VObj [("echo", VNum 7)])) false).
Proof.
  split.
  - repeat split; vm_compute; reflexivity.
  - apply (request_round_trip requester responder "http://host" "http://frame"
             2 "id-1" "echo" (VNum 7) echo (VObj [("echo", VNum 7)]));
      vm_compute; reflexivity.
Defined.

(** C2. A RequestError with a string message, a string type and a data
    field survives the codec: it is encoded as the plain object holding
    its message, type and data, and decoding that object gives an error
    with the same message, type and data. A request handler that throws
    it makes the peer post an error Response whose payload is that plain
    object, and the caller's awaitable is rejected with an error that has
    those three fields. *)
Theorem structured_error_round_trip (A B : Endpoint) (o_a o_b : string)
    (w_b : Win) (id action : string) (payload : value) (h : Handler)
    (msg ty : string) (data : value) :
  quiescent A -> quiescent B ->
  requestHandlers B !! action = Some h ->
  h payload = Throw (VReqErr msg (VStr ty) data) ->
  let k := length (waiters A) in
  let A1 := exec (sendRequest id action payload) A in
  let encoded :=
    VObj [("message", VStr msg); ("type", VStr ty); ("data", data)] in
  toErrorPayload (VReqErr msg (VStr ty) data) = Normal encoded /\
  Js.instanceof_Error encoded = false /\
  exists decoded,
    (forall st, fst (parseErrorPayload encoded st) = Normal decoded) /\
    Js.instanceof_RequestError decoded = true /\
    Js.get decoded "message" = Normal (VStr msg) /\
    Js.get decoded "type" = Normal (VStr ty) /\
    Js.get decoded "data" = Normal data /\
    exists request response,
      posted A1 = (posted A ++ [request])%list /\
      let B1 := deliver (arrives (source B) o_a request) B in
      posted B1 = (posted B ++ [response])%list /\
      Js.get (message response) "error" = Normal (VBool true) /\
      Js.get (message response) "payload" = Normal encoded /\
      let A2 := deliver (arrives w_b o_b response) A1 in
      waiters A2 !! k = Some (mkWaiter id (Rejected decoded) false).
Proof.
  intros HqA HqB Hh Hv. cbv zeta.
  split; [reflexivity|]. split; [reflexivity|].
  exists (VReqErr msg (VStr ty) data).
  split; [intros st; rewrite parseErrorPayload_decode; apply decode_structured|].
  do 4 (split; [reflexivity|]).
  exists (mkPosted (request_of id action payload) (origin A)),
         (mkPosted
            (response_of (VStr id)
               (VObj [("message", VStr msg); ("type", VStr ty); ("data", data)])
               (VBool true))
            (origin B)).
  destruct (deliver_request_fail B (source B) o_a id action payload h
              (VReqErr msg (VStr ty) data)
              (VObj [("message", VStr msg); ("type", VStr ty); ("data", data)])
              HqB eq_refl Hh Hv eq_refl) as (_ & Hp & _ & _).
  split; [reflexivity|]. split; [exact Hp|].
  split; [reflexivity|]. split; [reflexivity|].
  rewrite sendRequest_then_deliver by exact HqA.
  unfold arrives. simpl.
  rewrite response_outcome_error, decode_structured. reflexivity.
Qed.

Lemma structured_error_round_trip_witness :
  let encoded :=
    VObj [("message", VStr "invalid"); ("type", VStr "VALIDATION");
          ("data", VNum 7)] in
  (quiescent requester /\ quiescent responder /\
   requestHandlers responder !! "refuse" = Some refuse /\
   refuse (VNum 7) = Throw (VReqErr "invalid" (VStr "VALIDATION") (VNum 7))) /\
  toErrorPayload (VReqErr "invalid" (VStr "VALIDATION") (VNum 7))
  = Normal encoded /\
  Js.instanceof_Error encoded = false /\
  exists decoded,
    (forall st, fst (parseErrorPayload encoded st) = Normal decoded) /\
    Js.instanceof_RequestError decoded = true /\
    Js.get decoded "message" = Normal (VStr "invalid") /\
    Js.get decoded "type" = Normal (VStr "VALIDATION") /\
    Js.get decoded "data" = Normal (VNum 7) /\
    exists request response,
      posted (exec (sendRequest "id-2" "refuse" (VNum 7)) requester)
      = (posted requester ++ [request])%list /\
      posted (deliver (arrives (source responder) "http://host" request) responder)
      = (posted responder ++ [response])%list /\
      Js.get (message response) "error" = Normal (VBool true) /\
      Js.get (message response) "payload" = Normal encoded /\
      waiters (deliver (arrives 2 "http://frame" response)
                 (exec (sendRequest "id-2" "refuse" (VNum 7)) requester)) !! 0
      = Some (mkWaiter "id-2" (Rejected decoded) false).
Proof.
  cbv zeta. split.
  - repeat split; vm_compute; reflexivity.
  - apply (structured_error_round_trip requester responder "http://host"
             "http://frame" 2 "id-2" "refuse" (VNum 7) refuse
             "invalid" "VALIDATION" (VNum 7));
      vm_compute; reflexivity.
Defined.

(** C4. A request for an action with no registered request handler makes
    the peer post exactly one Response, whose error flag is true; no
    handler is called and no exception leaves the dispatch; when that
    Response reaches the caller, the caller's awaitable is rejected. *)
Theorem unknown_action_rejects (A B : Endpoint) (o_a o_b : string) (w_b : Win)
    (id action : string) (payload : value) :
  quiescent A -> quiescent B ->
  requestHandlers B !! action = None ->
  let k := length (waiters A) in
  let A1 := exec (sendRequest id action payload) A in
  exists request response,
    posted A1 = (posted A ++ [request])%list /\
    let B1 := deliver (arrives (source B) o_a request) B in
    posted B1 = (posted B ++ [response])%list /\
    isResponse (message response) = Normal true /\
    Js.get (message response) "error" = Normal (VBool true) /\
    invoked B1 = invoked B /\
    uncaught B1 = uncaught B /\
    let A2 := deliver (arrives w_b o_b response) A1 in
    exists e, waiters A2 !! k = Some (mkWaiter id (Rejected e) false).
Proof.
  intros HqA HqB Hh. cbv zeta.
  exists (mkPosted (request_of id action payload) (origin A)),
         (mkPosted
            (response_of (VStr id)
               (VErr "Error" ("Ação desconhecida: " ++ action)) (VBool true))
            (origin B)).
  destruct (deliver_request_unknown B (source B) o_a id action payload
              HqB eq_refl Hh) as (Hi & Hp & Hu & _).
  split; [reflexivity|]. split; [exact Hp|].
  split; [reflexivity|]. split; [reflexivity|].
  split; [exact Hi|]. split; [exact Hu|].
  exists (VErr "Error" ("Ação desconhecida: " ++ action)).
  rewrite sendRequest_then_deliver by exact HqA.
  unfold arrives. simpl.
  rewrite response_outcome_error. reflexivity.
Qed.

Lemma unknown_action_rejects_witness :
  (quiescent requester /\ quiescent responder /\
   requestHandlers responder !! "missing" = None) /\
  exists request response,
    posted (exec (sendRequest "id-3" "missing" VNull) requester)
    = (posted requester ++ [request])%list /\
    posted (deliver (arrives (source responder) "http://host" request) responder)
    = (posted responder ++ [response])%list /\
    isResponse (message response) = Normal true /\
    Js.get (message response) "error" = Normal (VBool true) /\
    invoked (deliver (arrives (source responder) "http://host" request) responder)
    = invoked responder /\
    uncaught (deliver (arrives (source responder) "http://host" request) responder)
    = uncaught responder /\
    exists e,
      waiters (deliver (arrives 2 "http://frame" response)
                 (exec (sendRequest "id-3" "missing" VNull) requester)) !! 0
      = Some (mkWaiter "id-3" (Rejected e) false).
Proof.
  split.
  - repeat split; vm_compute; reflexivity.
  - apply (unknown_action_rejects requester responder "http://host"
             "http://frame" 2 "id-3" "missing" VNull);
      vm_compute; reflexivity.
Defined.

(** C6, as stated: the Response for a request whose handler succeeded
    would carry the boolean [false] in its error field. It does not: the
    one Response the responder posts for an [echo] request has an error
    field that reads [undefined]. *)
Lemma success_response_error_is_not_false :
  let B1 :=
    deliver (mkEvent (Some 1) "http://host" (request_of "id-1" "echo" (VNum 7)))
      responder in
  exists response,
    posted B1 = [response] /\
    isResponse (message response) = Normal true /\
    Js.get (message response) "payload" = Normal (VObj [("echo", VNum 7)]) /\
    Js.get (message response) "error" <> Normal (VBool false).
Proof.
  cbv zeta. eexists. split; [vm_compute; reflexivity|].
  split; [reflexivity|]. split; [reflexivity|]. simpl. discriminate.
Qed.

(** C6, amended. The Response for a request whose handler succeeded has an
    error field that is present and holds [undefined]: [reply] is called
    with one argument. The value is falsy, not the boolean [false]; the
    requester's listener tests the field for truthiness and so takes the
    Response for a success: the caller's awaitable is fulfilled with the
    value the handler returned. *)
Theorem success_response_error_undefined (A B : Endpoint) (o_a o_b : string)
    (w_b : Win) (id action : string) (payload : value) (h : Handler)
    (v : value) :
  quiescent A -> quiescent B ->
  requestHandlers B !! action = Some h ->
  h payload = Normal v ->
  let k := length (waiters A) in
  let A1 := exec (sendRequest id action payload) A in
  exists request response error,
    fst (sendRequest id action payload A) = Normal k /\
    posted A1 = (posted A ++ [request])%list /\
    let B1 := deliver (arrives (source B) o_a request) B in
    posted B1 = (posted B ++ [response])%list /\
    Js.get (message response) "payload" = Normal v /\
    Js.has "error" (message response) = Normal true /\
    Js.get (message response) "error" = Normal error /\
    error = VUndef /\
    error <> VBool false /\
    Js.truthy error = false /\
    let A2 := deliver (arrives w_b o_b response) A1 in
    waiters A2 !! k = Some (mkWaiter id (Fulfilled v) false).
Proof.
  intros HqA HqB Hh Hv. cbv zeta.
  exists (mkPosted (request_of id action payload) (origin A)),
         (mkPosted (response_of (VStr id) v VUndef) (origin B)), VUndef.
  destruct (deliver_request_ok B (source B) o_a id action payload h v
              HqB eq_refl Hh Hv) as (_ & Hp & _ & _).
  split; [reflexivity|]. split; [reflexivity|]. split; [exact Hp|].
  do 4 (split; [reflexivity|]). split; [discriminate|].
  split; [reflexivity|].
  rewrite sendRequest_then_deliver by exact HqA.
  unfold arrives. simpl. rewrite response_outcome_success. reflexivity.
Qed.

Lemma success_response_error_undefined_witness :
  (quiescent requester /\ quiescent responder /\
   requestHandlers responder !! "echo" = Some echo /\
   echo (VNum 7) = Normal (VObj [("echo", VNum 7)])) /\
  exists request response error,
    fst (sendRequest "id-1" "echo" (VNum 7) requester) = Normal 0 /\
    posted (exec (sendRequest "id-1" "echo" (VNum 7)) requester)
    = (posted requester ++ [request])%list /\
    posted (deliver (arrives (source responder) "http://host" request) responder)
    = (posted responder ++ [response])%list /\
    Js.get (message response) "payload" = Normal (VObj [("echo", VNum 7)]) /\
    Js.has "error" (message response) = Normal true /\
    Js.get (message response) "error" = Normal error /\
    error = VUndef /\
    error <> VBool false /\
    Js.truthy error = false /\
    waiters (deliver (arrives 2 "http://frame" response)
               (exec (sendRequest "id-1" "echo" (VNum 7)) requester)) !! 0
    = Some (mkWaiter "id-1" (Fulfilled (VObj [("echo", VNum 7)])) false).
Proof.
  split.
  - repeat split; vm_compute; reflexivity.
  - apply (success_response_error_undefined requester responder "http://host"
             "http://frame" 2 "id-1" "echo" (VNum 7) echo
             (VObj [("echo", VNum 7)]));
      vm_compute; reflexivity.
Defined.

(** ** Correlation by id *)

Lemma answer_own id r s : answer id r s -> response_outcome id r = Some s.
Proof.
  intros (Hr & Hid & err & p & He & Hp & Hs).
  unfold response_outcome. rewrite Hr, Hid. simpl.
  rewrite String.eqb_refl, He, Hp.
  destruct Hs as [(Ht & ->)|(Ht & e & Hd & ->)]; rewrite Ht; [reflexivity|].
  specialize (Hd (constructor 0)). rewrite parseErrorPayload_decode in Hd.
  rewrite Hd. reflexivity.
Qed.

Lemma answer_other id id' r s :
  answer id r s -> id <> id' -> response_outcome id' r = None.
Proof.
  intros (Hr & Hid & _) Hne.
  unfold response_outcome. rewrite Hr, Hid. simpl.
  destruct (String.eqb_spec id id') as [->|_]; [contradiction|reflexivity].
Qed.

Lemma two_calls_first id1 a1 p1 id2 a2 p2 st :
  waiters (exec (sendRequest id2 a2 p2) (exec (sendRequest id1 a1 p1) st))
    !! length (waiters st)
  = Some (mkWaiter id1 Pending true).
Proof.
  rewrite sendRequest_waiters.
  rewrite lookup_app_l
    by (rewrite sendRequest_waiters, length_app; simpl; lia).
  apply sendRequest_waiter.
Qed.

Lemma two_calls_second id1 a1 p1 id2 a2 p2 st :
  waiters (exec (sendRequest id2 a2 p2) (exec (sendRequest id1 a1 p1) st))
    !! length (waiters (exec (sendRequest id1 a1 p1) st))
  = Some (mkWaiter id2 Pending true).
Proof. apply sendRequest_waiter. Qed.

Lemma deliver_twice_waiters e1 e2 st i :
  quiescent st ->
  waiters (deliver e2 (deliver e1 st)) !! i
  = waiter_after e2 <$> (waiter_after e1 <$> waiters st !! i).
Proof.
  intros Hq.
  rewrite deliver_waiters by (apply deliver_quiescent; exact Hq).
  rewrite deliver_waiters by exact Hq. reflexivity.
Qed.

(** C8. Two calls of [sendRequest] in flight with different ids, each
    answered by a Response bearing its id: whichever Response arrives
    first, each awaitable settles as its own Response asks, with that
    Response's payload. *)
Theorem responses_settle_by_id (A : Endpoint)
    (id1 id2 a1 a2 : string) (p1 p2 : value)
    (r1 r2 : MessageEvent) (s1 s2 : Settlement) :
  quiescent A ->
  id1 <> id2 ->
  answer id1 (ev_data r1) s1 ->
  answer id2 (ev_data r2) s2 ->
  let k1 := length (waiters A) in
  let A1 := exec (sendRequest id1 a1 p1) A in
  let k2 := length (waiters A1) in
  let A2 := exec (sendRequest id2 a2 p2) A1 in
  fst (sendRequest id1 a1 p1 A) = Normal k1 /\
  fst (sendRequest id2 a2 p2 A1) = Normal k2 /\
  (waiters (deliver r2 (deliver r1 A2)) !! k1 = Some (mkWaiter id1 s1 false) /\
   waiters (deliver r2 (deliver r1 A2)) !! k2 = Some (mkWaiter id2 s2 false)) /\
  (waiters (deliver r1 (deliver r2 A2)) !! k1 = Some (mkWaiter id1 s1 false) /\
   waiters (deliver r1 (deliver r2 A2)) !! k2 = Some (mkWaiter id2 s2 false)).
Proof.
  intros Hq Hne H1 H2. cbv zeta.
  assert (Hq2 : quiescent (exec (sendRequest id2 a2 p2)
                             (exec (sendRequest id1 a1 p1) A)))
    by (do 2 apply sendRequest_quiescent; exact Hq).
  pose proof (answer_own _ _ _ H1) as O11.
  pose proof (answer_own _ _ _ H2) as O22.
  pose proof (answer_other _ id2 _ _ H1 Hne) as O21.
  pose proof (answer_other _ id1 _ _ H2 (not_eq_sym Hne)) as O12.
  split; [reflexivity|]. split; [reflexivity|].
  rewrite !deliver_twice_waiters by exact Hq2.
  rewrite two_calls_first, two_calls_second. simpl.
  rewrite O11, O22, O21, O12. simpl. rewrite O11, O22.
  repeat split; try (destruct s1; reflexivity); destruct s2; reflexivity.
Qed.

Lemma responses_settle_by_id_witness :
  let r1 := mkEvent (Some 2) "http://frame"
              (response_of (VStr "id-1") (VStr "first") VUndef) in
  let r2 := mkEvent (Some 2) "http://frame"
              (response_of (VStr "id-2") (VStr "second") VUndef) in
  let A2 := exec (sendRequest "id-2" "echo" VNull)
              (exec (sendRequest "id-1" "echo" VNull) requester) in
  (quiescent requester /\ "id-1" <> "id-2" /\
   answer "id-1" (ev_data r1) (Fulfilled (VStr "first")) /\
   answer "id-2" (ev_data r2) (Fulfilled (VStr "second"))) /\
  fst (sendRequest "id-1" "echo" VNull requester) = Normal 0 /\
  fst (sendRequest "id-2" "echo" VNull
         (exec (sendRequest "id-1" "echo" VNull) requester)) = Normal 1 /\
  (waiters (deliver r2 (deliver r1 A2)) !! 0
   = Some (mkWaiter "id-1" (Fulfilled (VStr "first")) false) /\
   waiters (deliver r2 (deliver r1 A2)) !! 1
   = Some (mkWaiter "id-2" (Fulfilled (VStr "second")) false)) /\
  (waiters (deliver r1 (deliver r2 A2)) !! 0
   = Some (mkWaiter "id-1" (Fulfilled (VStr "first")) false) /\
   waiters (deliver r1 (deliver r2 A2)) !! 1
   = Some (mkWaiter "id-2" (Fulfilled (VStr "second")) false)).
Proof.
  cbv zeta.
  assert (Ha : forall id p,
             answer id (response_of (VStr id) p VUndef) (Fulfilled p)).
  { intros id p. split; [reflexivity|]. split; [reflexivity|].
    exists VUndef, p. split; [reflexivity|]. split; [reflexivity|].
    left. split; reflexivity. }
  split.
  - split; [reflexivity|]. split; [discriminate|]. split; apply Ha.
  - apply (responses_settle_by_id requester "id-1" "id-2" "echo" "echo"
             VNull VNull
             (mkEvent (Some 2) "http://frame"
                (response_of (VStr "id-1") (VStr "first") VUndef))
             (mkEvent (Some 2) "http://frame"
                (response_of (VStr "id-2") (VStr "second") VUndef))
             (Fulfilled (VStr "first")) (Fulfilled (VStr "second")));
      [reflexivity | discriminate | apply Ha | apply Ha].
Defined.

(** C10. A Response whose id matches a pending call rejects the call's
    awaitable only if its error field is truthy; when the field is
    absent, undefined or otherwise falsy the awaitable is fulfilled with
    the Response's payload. [isResponse] asks for neither field: a
    Response with only an id and a type fulfils the call with
    [undefined]. *)
Theorem response_error_flag (A : Endpoint) (id action : string)
    (payload : value) (r : MessageEvent) (rid err p : value) :
  quiescent A ->
  isResponse (ev_data r) = Normal true ->
  Js.get (ev_data r) "id" = Normal rid ->
  Js.strict_eq_string rid id = true ->
  Js.get (ev_data r) "error" = Normal err ->
  Js.get (ev_data r) "payload" = Normal p ->
  let k := length (waiters A) in
  let A1 := exec (sendRequest id action payload) A in
  (Js.truthy err = false ->
   waiters (deliver r A1) !! k = Some (mkWaiter id (Fulfilled p) false)) /\
  (forall e l,
     waiters (deliver r A1) !! k = Some (mkWaiter id (Rejected e) l) ->
     Js.truthy err = true) /\
  (forall src o,
     let bare := VObj [("id", VStr id); ("type", VStr messageTypeResponse)] in
     isResponse bare = Normal true /\
     waiters (deliver (mkEvent src o bare) A1) !! k
     = Some (mkWaiter id (Fulfilled VUndef) false)).
Proof.
  intros Hq Hr Hid Heq He Hp. cbv zeta.
  assert (Hout : response_outcome id (ev_data r)
                 = if Js.truthy err
                   then match decode p with
                        | Normal e => Some (Rejected e)
                        | Throw _ => None
                        end
                   else Some (Fulfilled p)).
  { unfold response_outcome. rewrite Hr, Hid, Heq, He, Hp. reflexivity. }
  split; [|split].
  - intros Hf. rewrite sendRequest_then_deliver by exact Hq.
    rewrite Hout, Hf. reflexivity.
  - intros e l. rewrite sendRequest_then_deliver by exact Hq.
    rewrite Hout. destruct (Js.truthy err); [reflexivity|].
    intros H. inversion H.
  - intros src o. split; [reflexivity|].
    rewrite sendRequest_then_deliver by exact Hq.
    unfold response_outcome. simpl. rewrite String.eqb_refl. reflexivity.
Qed.

Lemma response_error_flag_witness :
  let r := mkEvent (Some 2) "http://frame"
             (VObj [("id", VStr "id-1"); ("type", VStr messageTypeResponse);
                    ("payload", VStr "done"); ("error", VNum 0)]) in
  let A1 := exec (sendRequest "id-1" "echo" VNull) requester in
  (quiescent requester /\
   isResponse (ev_data r) = Normal true /\
   Js.get (ev_data r) "id" = Normal (VStr "id-1") /\
   Js.strict_eq_string (VStr "id-1") "id-1" = true /\
   Js.get (ev_data r) "error" = Normal (VNum 0) /\
   Js.get (ev_data r) "payload" = Normal (VStr "done")) /\
  (Js.truthy (VNum 0) = false ->
   waiters (deliver r A1) !! 0
   = Some (mkWaiter "id-1" (Fulfilled (VStr "done")) false)) /\
  (forall e l,
     waiters (deliver r A1) !! 0 = Some (mkWaiter "id-1" (Rejected e) l) ->
     Js.truthy (VNum 0) = true) /\
  (forall src o,
     let bare := VObj [("id", VStr "id-1"); ("type", VStr messageTypeResponse)] in
     isResponse bare = Normal true /\
     waiters (deliver (mkEvent src o bare) A1) !! 0
     = Some (mkWaiter "id-1" (Fulfilled VUndef) false)).
Proof.
  cbv zeta. split.
  - repeat split; reflexivity.
  - apply (response_error_flag requester "id-1" "echo" VNull
             (mkEvent (Some 2) "http://frame"
                (VObj [("id", VStr "id-1"); ("type", VStr messageTypeResponse);
                       ("payload", VStr "done"); ("error", VNum 0)]))
             (VStr "id-1") (VNum 0) (VStr "done"));
      reflexivity.
Defined.

(** ** What the binding check covers *)

(** [#messageHandler] does nothing at all with a message whose source is
    not the bound peer. *)
Lemma messageHandler_foreign msg st :
  ev_source msg <> Some (source st) ->
  messageHandler msg st = (Normal tt, st).
Proof.
  intros Hsrc. unfold messageHandler, bind.
  destruct (ev_source msg) as [w|]; [|reflexivity].
  destruct (Nat.eqb_spec w (source st)) as [->|_]; [|reflexivity].
  contradiction.
Qed.

(** A foreign message that is not a Response changes nothing. *)
Lemma deliver_foreign msg st :
  quiescent st ->
  ev_source msg <> Some (source st) ->
  isResponse (ev_data msg) = Normal false ->
  deliver msg st = st.
Proof.
  intros Hq Hsrc Hr. unfold deliver, run_listener.
  rewrite messageHandler_foreign by exact Hsrc.
  rewrite checkpoint_quiescent by exact Hq.
  apply run_callbacks_idle; assumption.
Qed.

(** ** Error responses that do not decode *)

(** Whatever the payload, if the decoder throws on it the call that the
    error Response answers is left pending, its listener attached. *)
Lemma undecodable_error_pending id action payload src o p e st :
  quiescent st ->
  decode p = Throw e ->
  waiters (deliver (mkEvent src o (response_of (VStr id) p (VBool true)))
             (exec (sendRequest id action payload) st))
    !! length (waiters st)
  = Some (mkWaiter id Pending true).
Proof.
  intros Hq Hd. rewrite sendRequest_then_deliver by exact Hq.
  simpl. rewrite response_outcome_error, Hd. reflexivity.
Qed.

(** ** Where the code departs from its specification *)

(** C3. An error Response whose payload is not an error value and lacks
    the structured shape should reject the caller's awaitable with the
    generic unknown error. The listener calls [parseErrorPayload] while
    evaluating the argument of [reject]; the decoder throws, [reject] is
    never reached, the exception leaves the listener, and the awaitable
    stays pending with its listener still attached. *)
Theorem undecodable_error_leaves_call_pending :
  let A1 := exec (sendRequest "id-1" "echo" VNull) requester in
  let r := mkEvent (Some 2) "http://frame"
             (response_of (VStr "id-1") (VStr "oops") (VBool true)) in
  isResponse (ev_data r) = Normal true /\
  fst (parseErrorPayload (VStr "oops") A1) = Throw unknown_error /\
  waiters (deliver r A1) = [mkWaiter "id-1" Pending true] /\
  uncaught (deliver r A1) = [unknown_error].
Proof. cbv zeta. repeat split; vm_compute; reflexivity. Qed.

(** C5. A failure of an event handler should be caught and logged by the
    messenger. [#handleEvent] calls the handler bare: the exception
    leaves [#messageHandler] uncaught and nothing is logged for it. *)
Theorem event_handler_failure_escapes :
  let ev := mkEvent (Some 1) "http://host"
              (VObj [("type", VStr messageTypeEvent);
                     ("action", VStr "changed"); ("payload", VNull)]) in
  isEvent (ev_data ev) = Normal true /\
  eventHandlers responder !! "changed" = Some crash /\
  fst (messageHandler ev responder) = Throw (VErr "Error" "boom") /\
  uncaught (deliver ev responder) = [VErr "Error" "boom"] /\
  console (deliver ev responder) = console responder /\
  invoked (deliver ev responder) = [mkInvocation OfEvent "changed" VNull].
Proof. cbv zeta. repeat split; vm_compute; reflexivity. Qed.

(** C7. A message from a window other than the bound peer should settle
    no pending call. [#messageHandler] drops it, but the per-call
    listener never looks at the sender: a Response from window 3, or from
    no window at all, fulfils a call made to window 2. *)
Theorem foreign_response_settles_call :
  let A1 := exec (sendRequest "id-1" "echo" VNull) requester in
  let forged := response_of (VStr "id-1") (VStr "forged") VUndef in
  source A1 = 2 /\
  waiters A1 = [mkWaiter "id-1" Pending true] /\
  waiters (deliver (mkEvent (Some 3) "http://evil" forged) A1)
  = [mkWaiter "id-1" (Fulfilled (VStr "forged")) false] /\
  waiters (deliver (mkEvent None "http://evil" forged) A1)
  = [mkWaiter "id-1" (Fulfilled (VStr "forged")) false].
Proof. cbv zeta. repeat split; vm_compute; reflexivity. Qed.

(** C9. The three predicates should answer with a boolean on every
    input. [isResponse] compares the type tag with [==], where its two
    siblings use [===]: a tag that is an object with an own [toString]
    property goes through ToPrimitive and the comparison throws. *)
Theorem isResponse_throws :
  let v := VObj [("id", VStr "id-1");
                 ("type", VObj [("toString", VNum 1)])] in
  isResponse v = Throw (TypeError "Cannot convert object to primitive value") /\
  isRequest v = Normal false /\
  isEvent v = Normal false.
Proof. cbv zeta. repeat split; reflexivity. Qed.

(** * Further properties of the module *)

(** ** The predicates *)

Lemma isRequest_accepts v :
  isRequest v = Normal true <->
  (Js.has "id" v = Normal true /\ Js.has "action" v = Normal true /\
   Js.get v "type" = Normal (VStr messageTypeRequest)).
Proof.
  split; [apply isRequest_shape|].
  intros (Hi & Ha & Ht). unfold isRequest, Js.and_then.
  destruct v; simpl in *; try discriminate.
  destruct (Js.own props "id"); simpl in *; [|discriminate].
  destruct (Js.own props "action"); simpl in *; [|discriminate].
  destruct (Js.own props "type") as [t|]; simpl in *; [|discriminate].
  injection Ht as ->. reflexivity.
Qed.

Lemma isEvent_accepts v :
  isEvent v = Normal true <->
  (Js.has "action" v = Normal true /\
   Js.get v "type" = Normal (VStr messageTypeEvent)).
Proof.
  split; [apply isEvent_shape|].
  intros (Ha & Ht). unfold isEvent, Js.and_then.
  destruct v; simpl in *; try discriminate.
  destruct (Js.own props "action"); simpl in *; [|discriminate].
  destruct (Js.own props "type") as [t|]; simpl in *; [|discriminate].
  injection Ht as ->. reflexivity.
Qed.

(** X1. [isRequest] and [isEvent] answer with a boolean on every value,
    primitives and [null] included, and answer [true] exactly for the
    values that have the keys they name ([id] and [action], or [action])
    and whose [type] is the tag itself. *)
Theorem strict_predicates_exact (v : value) :
  (exists b, isRequest v = Normal b) /\
  (exists b, isEvent v = Normal b) /\
  (isRequest v = Normal true <->
   (Js.has "id" v = Normal true /\ Js.has "action" v = Normal true /\
    Js.get v "type" = Normal (VStr messageTypeRequest))) /\
  (isEvent v = Normal true <->
   (Js.has "action" v = Normal true /\
    Js.get v "type" = Normal (VStr messageTypeEvent))).
Proof.
  split; [apply isRequest_total|]. split; [apply isEvent_total|].
  split; [apply isRequest_accepts|apply isEvent_accepts].
Qed.

Lemma accepts_true c : accepts c = true -> c = Normal true.
Proof. destruct c as [[|]|]; simpl; congruence. Qed.

Lemma tagged_not_response v tag :
  Js.get v "type" = Normal (VStr tag) ->
  tag <> messageTypeResponse ->
  accepts (isResponse v) = false.
Proof.
  intros Ht Hne. unfold isResponse, Js.and_then.
  destruct v; simpl in *; try reflexivity.
  - destruct (Js.own props "id"); simpl; [|reflexivity].
    destruct (Js.own props "type") as [t|]; simpl in *; [|discriminate].
    injection Ht as ->. simpl.
    destruct (String.eqb_spec tag messageTypeResponse); [contradiction|reflexivity].
Qed.

(** X2. No value is accepted by two of the three predicates: a message
    is a Request, a Response, an Event, or none of them. So the two
    independent [if]s of [#messageHandler] never both fire, and a
    Response never reaches a handler. *)
Theorem predicates_exclusive (v : value) :
  accepts (isRequest v) && accepts (isEvent v) = false /\
  accepts (isRequest v) && accepts (isResponse v) = false /\
  accepts (isEvent v) && accepts (isResponse v) = false.
Proof.
  split; [|split].
  - destruct (accepts (isRequest v)) eqn:Hr; [|reflexivity].
    apply accepts_true in Hr. rewrite (request_is_not_event v Hr). reflexivity.
  - destruct (accepts (isRequest v)) eqn:Hr; [|reflexivity].
    apply accepts_true, isRequest_shape in Hr. destruct Hr as (_ & _ & Ht).
    simpl. apply (tagged_not_response v _ Ht). discriminate.
  - destruct (accepts (isEvent v)) eqn:He; [|reflexivity].
    apply accepts_true, isEvent_shape in He. destruct He as (_ & Ht).
    simpl. apply (tagged_not_response v _ Ht). discriminate.
Qed.

(** X3. On every value whose [type] is absent or a primitive (a string,
    a number, a boolean, [null], [undefined]), the wire format among
    them, [isResponse] answers with a boolean and never throws; it
    answers [true] exactly when the value has an [id] and its [type] is
    the Response tag itself. There the loose comparison agrees with the
    strict one of the two sibling predicates. *)
Theorem isResponse_on_primitive_tag (v : value) :
  (forall t, Js.get v "type" = Normal t -> is_primitive t = true) ->
  (exists b, isResponse v = Normal b) /\
  (isResponse v = Normal true <->
   (Js.has "id" v = Normal true /\
    Js.get v "type" = Normal (VStr messageTypeResponse))).
Proof.
  intros Hprim. unfold isResponse, Js.and_then.
  destruct v; simpl in *;
    try (split; [eexists; reflexivity|];
         split; [discriminate | intros (H & _); discriminate]).
  destruct (Js.own props "id"); simpl;
    [| split; [eexists; reflexivity|];
       split; [discriminate | intros (H & _); discriminate] ].
  destruct (Js.own props "type") as [t|]; simpl in *;
    [| split; [eexists; reflexivity|];
       split; [discriminate | intros (_ & H); discriminate] ].
  specialize (Hprim t eq_refl).
  destruct t; simpl in *; try discriminate;
    try (split; [eexists; reflexivity|];
         split; [discriminate | intros (_ & H); discriminate]).
  split; [eexists; reflexivity|]. split.
  - intros H. injection H as H. apply String.eqb_eq in H. subst s.
    split; reflexivity.
  - intros (_ & H). injection H as ->. reflexivity.
Qed.

Lemma isResponse_on_primitive_tag_witness :
  let v := VObj [("id", VStr "id-1"); ("type", VNum 5)] in
  (forall t, Js.get v "type" = Normal t -> is_primitive t = true) /\
  (exists b, isResponse v = Normal b) /\
  (isResponse v = Normal true <->
   (Js.has "id" v = Normal true /\
    Js.get v "type" = Normal (VStr messageTypeResponse))).
Proof.
  cbv zeta.
  assert (Hp : forall t,
             Js.get (VObj [("id", VStr "id-1"); ("type", VNum 5)]) "type"
             = Normal t -> is_primitive t = true).
  { intros t H. simpl in H. injection H as <-. reflexivity. }
  split; [exact Hp|].
  apply (isResponse_on_primitive_tag
           (VObj [("id", VStr "id-1"); ("type", VNum 5)])).
  exact Hp.
Defined.

(** X4. The messages the messenger builds are accepted by the predicate
    of their kind and carry what they were given, whatever the id, action
    and payload: the Request of [sendRequest] by [isRequest], the Event
    of [sendEvent] by [isEvent]. Each call posts exactly one message, to
    the messenger's target origin. *)
Theorem built_messages_recognised (st : Endpoint) (id action : string)
    (payload : value) :
  (exists m, posted (exec (sendRequest id action payload) st)
             = (posted st ++ [mkPosted m (origin st)])%list /\
             isRequest m = Normal true /\
             Js.get m "id" = Normal (VStr id) /\
             Js.get m "action" = Normal (VStr action) /\
             Js.get m "payload" = Normal payload) /\
  (exists m, posted (exec (sendEvent action payload) st)
             = (posted st ++ [mkPosted m (origin st)])%list /\
             isEvent m = Normal true /\
             Js.has "id" m = Normal false /\
             Js.get m "action" = Normal (VStr action) /\
             Js.get m "payload" = Normal payload /\
             waiters (exec (sendEvent action payload) st) = waiters st).
Proof.
  split; eexists; (split; [reflexivity|]); repeat split.
Qed.

(** ** The error codec *)

Lemma is_string_VStr m : is_string m = true -> exists s, m = VStr s.
Proof. destruct m; simpl; try discriminate. eauto. Qed.

(** X5. [parseErrorPayload] has two outcomes only, on every payload. It
    returns an Error instance and touches nothing; or it logs the payload
    once with [console.error] and throws the generic unknown error. Its
    guards keep [in] and the property reads from throwing: no TypeError
    ever comes out of it. *)
Theorem parseErrorPayload_outcomes (payload : value) (st : Endpoint) :
  (exists e, parseErrorPayload payload st = (Normal e, st) /\
             Js.instanceof_Error e = true) \/
  parseErrorPayload payload st
  = (Throw unknown_error,
     exec (console_write LError "Erro desconhecido" [payload]) st).
Proof.
  unfold parseErrorPayload, structured_shape, Js.and_then, bind, lift, ret.
  destruct payload; simpl; try (right; reflexivity);
    try (left; eexists; split; reflexivity).
  destruct (Js.own props "message") as [m|]; simpl; [|right; reflexivity].
  destruct (is_string m) eqn:Hm; simpl; [|right; reflexivity].
  destruct (Js.own props "type") as [t|]; simpl; [|right; reflexivity].
  destruct (is_string t) eqn:Ht; simpl; [|right; reflexivity].
  destruct (Js.own props "data") as [d|]; simpl; [|right; reflexivity].
  apply is_string_VStr in Hm. destruct Hm as (s & ->).
  left. eexists. split; reflexivity.
Qed.

(** X6. Any plain object with a string [message], a string [type] and a
    [data] key decodes to a RequestError with those three values,
    whatever else the object holds; nothing is logged. So an error a
    handler throws as a plain object of that shape reaches the caller as
    a RequestError. *)
Theorem parseErrorPayload_promotes (props : list (string * value))
    (msg ty : string) (data : value) (st : Endpoint) :
  Js.own props "message" = Some (VStr msg) ->
  Js.own props "type" = Some (VStr ty) ->
  Js.own props "data" = Some data ->
  toErrorPayload (VObj props) = Normal (VObj props) /\
  parseErrorPayload (VObj props) st = (Normal (VReqErr msg (VStr ty) data), st).
Proof.
  intros Hm Ht Hd. split; [reflexivity|].
  unfold parseErrorPayload, structured_shape, Js.and_then, bind, lift.
  simpl. rewrite Hm. simpl. rewrite Ht. simpl. rewrite Hd. reflexivity.
Qed.

Lemma parseErrorPayload_promotes_witness :
  let props := [("code", VNum 42); ("message", VStr "invalid");
                ("type", VStr "VALIDATION"); ("data", VNull)] in
  (Js.own props "message" = Some (VStr "invalid") /\
   Js.own props "type" = Some (VStr "VALIDATION") /\
   Js.own props "data" = Some VNull) /\
  toErrorPayload (VObj props) = Normal (VObj props) /\
  parseErrorPayload (VObj props) requester
  = (Normal (VReqErr "invalid" (VStr "VALIDATION") VNull), requester).
Proof.
  cbv zeta. split.
  - repeat split; reflexivity.
  - apply (parseErrorPayload_promotes
             [("code", VNum 42); ("message", VStr "invalid");
              ("type", VStr "VALIDATION"); ("data", VNull)]
             "invalid" "VALIDATION" VNull requester); reflexivity.
Defined.

(** ** Events *)

Lemma event_not_response action payload :
  isResponse (event_of action payload) = Normal false.
Proof. reflexivity. Qed.

(** Run [#messageHandler] on an event from the bound peer, in a window
    whose fields are laid out. *)
Ltac run_event Hh :=
  unfold run_listener, messageHandler, bind; simpl;
  rewrite Nat.eqb_refl; simpl;
  match goal with
  | |- context [when ?d _] => destruct d
  end; simpl;
  unfold handleEvent, bind, lift; simpl;
  rewrite Hh; simpl.

Lemma deliver_event_handled B sender o action payload (h : Handler) :
  quiescent B ->
  source B = sender ->
  eventHandlers B !! action = Some h ->
  let B1 := deliver (mkEvent (Some sender) o (event_of action payload)) B in
  invoked B1 = (invoked B ++ [mkInvocation OfEvent action payload])%list /\
  posted B1 = posted B /\ waiters B1 = waiters B /\
  uncaught B1 = match h payload with
                | Normal _ => uncaught B
                | Throw e => (uncaught B ++ [e])%list
                end.
Proof.
  intros Hq Hsrc Hh. cbv zeta. unfold deliver.
  rewrite run_callbacks_idle;
    [| apply event_not_response
     | apply messageHandler_step; exact Hq ].
  destruct B as [d src og rh eh ws mt ps cs inv unc].
  unfold quiescent in Hq. cbn [microtasks source eventHandlers] in Hq, Hsrc, Hh.
  subst mt src. cbn [invoked posted uncaught waiters origin].
  run_event Hh; destruct (h payload); simpl; repeat split.
Qed.

Lemma deliver_event_unhandled B sender o action payload :
  quiescent B ->
  source B = sender ->
  eventHandlers B !! action = None ->
  let B1 := deliver (mkEvent (Some sender) o (event_of action payload)) B in
  invoked B1 = invoked B /\ posted B1 = posted B /\ waiters B1 = waiters B /\
  uncaught B1 = uncaught B /\
  requestHandlers B1 = requestHandlers B /\
  eventHandlers B1 = eventHandlers B /\
  (debug B = false -> B1 = B).
Proof.
  intros Hq Hsrc Hh. cbv zeta. unfold deliver.
  rewrite run_callbacks_idle;
    [| apply event_not_response
     | apply messageHandler_step; exact Hq ].
  destruct B as [d src og rh eh ws mt ps cs inv unc].
  unfold quiescent in Hq. cbn [microtasks source eventHandlers] in Hq, Hsrc, Hh.
  subst mt src.
  cbn [invoked posted uncaught waiters origin debug requestHandlers eventHandlers].
  run_event Hh; repeat split; discriminate.
Qed.

(** X7. An Event sent with [sendEvent] and delivered to a peer that has
    an event handler registered for its action makes the peer call that
    handler once, with the payload sent. Nothing is posted back, no
    pending call is touched, and nothing is left uncaught when the
    handler returns. *)
Theorem event_reaches_handler (A B : Endpoint) (o_a : string)
    (action : string) (payload : value) (h : Handler) (v : value) :
  quiescent B ->
  eventHandlers B !! action = Some h ->
  h payload = Normal v ->
  exists event,
    posted (exec (sendEvent action payload) A) = (posted A ++ [event])%list /\
    let B1 := deliver (arrives (source B) o_a event) B in
    invoked B1 = (invoked B ++ [mkInvocation OfEvent action payload])%list /\
    posted B1 = posted B /\
    waiters B1 = waiters B /\
    uncaught B1 = uncaught B.
Proof.
  intros Hq Hh Hv.
  exists (mkPosted (event_of action payload) (origin A)).
  split; [reflexivity|]. cbv zeta.
  destruct (deliver_event_handled B (source B) o_a action payload h
              Hq eq_refl Hh) as (Hi & Hp & Hw & Hu).
  rewrite Hv in Hu. repeat split; assumption.
Qed.

Lemma event_reaches_handler_witness :
  let B := exec (registerEventsHandler "ping" echo) (constructor 1) in
  (quiescent B /\ eventHandlers B !! "ping" = Some echo /\
   echo (VNum 7) = Normal (VObj [("echo", VNum 7)])) /\
  exists event,
    posted (exec (sendEvent "ping" (VNum 7)) requester)
    = (posted requester ++ [event])%list /\
    invoked (deliver (arrives (source B) "http://host" event) B)
    = (invoked B ++ [mkInvocation OfEvent "ping" (VNum 7)])%list /\
    posted (deliver (arrives (source B) "http://host" event) B) = posted B /\
    waiters (deliver (arrives (source B) "http://host" event) B) = waiters B /\
    uncaught (deliver (arrives (source B) "http://host" event) B) = uncaught B.
Proof.
  cbv zeta. split.
  - repeat split; vm_compute; reflexivity.
  - apply (event_reaches_handler requester
             (exec (registerEventsHandler "ping" echo) (constructor 1))
             "http://host" "ping" (VNum 7) echo (VObj [("echo", VNum 7)]));
      vm_compute; reflexivity.
Defined.

(** X8. An Event for an action with no registered event handler is
    dropped: no handler is called, nothing is posted, nothing is left
    uncaught, no pending call is touched; with [debug] off the window is
    exactly as before. Nothing is kept for later: registering a handler
    for the action afterwards calls nothing. *)
Theorem event_without_handler_dropped (B : Endpoint) (o_a : string)
    (action : string) (payload : value) (h : Handler) :
  quiescent B ->
  eventHandlers B !! action = None ->
  let B1 :=
    deliver (mkEvent (Some (source B)) o_a (event_of action payload)) B in
  invoked B1 = invoked B /\ posted B1 = posted B /\
  waiters B1 = waiters B /\ uncaught B1 = uncaught B /\
  (debug B = false -> B1 = B) /\
  let B2 := exec (registerEventsHandler action h) B1 in
  invoked B2 = invoked B /\ posted B2 = posted B /\
  eventHandlers B2 !! action = Some h.
Proof.
  intros Hq Hh. cbv zeta.
  destruct (deliver_event_unhandled B (source B) o_a action payload
              Hq eq_refl Hh) as (Hi & Hp & Hw & Hu & _ & _ & Hd).
  repeat split; try assumption.
  simpl. apply lookup_insert_eq.
Qed.

Lemma event_without_handler_dropped_witness :
  let B1 :=
    deliver (mkEvent (Some (source responder)) "http://host"
               (event_of "unheard" VNull)) responder in
  (quiescent responder /\ eventHandlers responder !! "unheard" = None) /\
  invoked B1 = invoked responder /\ posted B1 = posted responder /\
  waiters B1 = waiters responder /\ uncaught B1 = uncaught responder /\
  (debug responder = false -> B1 = responder) /\
  invoked (exec (registerEventsHandler "unheard" echo) B1) = invoked responder /\
  posted (exec (registerEventsHandler "unheard" echo) B1) = posted responder /\
  eventHandlers (exec (registerEventsHandler "unheard" echo) B1) !! "unheard"
  = Some echo.
Proof.
  cbv zeta. split.
  - split; vm_compute; reflexivity.
  - apply (event_without_handler_dropped responder "http://host" "unheard"
             VNull echo); vm_compute; reflexivity.
Defined.

(** ** The registries *)

(** X9. The two registries do not leak into each other. After
    [registerEventsHandler(a, h)] a Request for [a] is still an unknown
    action: one error Response, [h] is not called. After
    [registerRequestHandler(a, h)] an Event for [a] is still dropped:
    [h] is not called and nothing is posted. *)
Theorem registries_are_separate (B : Endpoint) (o_a id : string)
    (action : string) (payload : value) (h : Handler) :
  quiescent B ->
  requestHandlers B !! action = None ->
  eventHandlers B !! action = None ->
  (let B' := exec (registerEventsHandler action h) B in
   let B1 :=
     deliver (mkEvent (Some (source B')) o_a (request_of id action payload)) B' in
   invoked B1 = invoked B /\
   exists response,
     posted B1 = (posted B ++ [response])%list /\
     Js.get (message response) "error" = Normal (VBool true)) /\
  (let B' := exec (registerRequestHandler action h) B in
   let B1 :=
     deliver (mkEvent (Some (source B')) o_a (event_of action payload)) B' in
   invoked B1 = invoked B /\ posted B1 = posted B).
Proof.
  intros Hq Hr He. cbv zeta. split.
  - destruct (deliver_request_unknown
                (exec (registerEventsHandler action h) B)
                (source B) o_a id action payload Hq eq_refl Hr)
      as (Hi & Hp & _ & _).
    split; [exact Hi|]. eexists. split; [exact Hp|]. reflexivity.
  - destruct (deliver_event_unhandled
                (exec (registerRequestHandler action h) B)
                (source B) o_a action payload Hq eq_refl He)
      as (Hi & Hp & _).
    split; assumption.
Qed.

Lemma registries_are_separate_witness :
  let B := constructor 1 in
  (quiescent B /\ requestHandlers B !! "save" = None /\
   eventHandlers B !! "save" = None) /\
  (invoked (deliver (mkEvent (Some (source (exec (registerEventsHandler "save" echo) B)))
                       "http://host" (request_of "id-1" "save" VNull))
              (exec (registerEventsHandler "save" echo) B))
   = invoked B /\
   exists response,
     posted (deliver (mkEvent (Some (source (exec (registerEventsHandler "save" echo) B)))
                        "http://host" (request_of "id-1" "save" VNull))
               (exec (registerEventsHandler "save" echo) B))
     = (posted B ++ [response])%list /\
     Js.get (message response) "error" = Normal (VBool true)) /\
  (invoked (deliver (mkEvent (Some (source (exec (registerRequestHandler "save" echo) B)))
                       "http://host" (event_of "save" VNull))
              (exec (registerRequestHandler "save" echo) B))
   = invoked B /\
   posted (deliver (mkEvent (Some (source (exec (registerRequestHandler "save" echo) B)))
                      "http://host" (event_of "save" VNull))
             (exec (registerRequestHandler "save" echo) B))
   = posted B).
Proof.
  cbv zeta. split.
  - repeat split; vm_compute; reflexivity.
  - apply (registries_are_separate (constructor 1) "http://host" "id-1"
             "save" VNull echo); vm_compute; reflexivity.
Defined.

(** X10. Registering a request handler replaces the one the action had:
    after two registrations for the same action a Request is answered by
    the second handler alone, called once. Handlers of other actions
    stay as they were. *)
Theorem last_registration_wins (B : Endpoint) (o_a id : string)
    (action other : string) (payload : value) (h1 h2 : Handler) (v : value) :
  quiescent B ->
  h2 payload = Normal v ->
  other <> action ->
  let B' := exec (registerRequestHandler action h2)
              (exec (registerRequestHandler action h1) B) in
  let B1 :=
    deliver (mkEvent (Some (source B')) o_a (request_of id action payload)) B' in
  invoked B1 = (invoked B ++ [mkInvocation OfRequest action payload])%list /\
  posted B1
  = (posted B ++ [mkPosted (response_of (VStr id) v VUndef) (origin B)])%list /\
  requestHandlers B' !! other = requestHandlers B !! other /\
  eventHandlers B' = eventHandlers B.
Proof.
  intros Hq Hv Hne. cbv zeta.
  assert (Hh : requestHandlers
                 (exec (registerRequestHandler action h2)
                    (exec (registerRequestHandler action h1) B)) !! action
               = Some h2) by (simpl; apply lookup_insert_eq).
  destruct (deliver_request_ok
              (exec (registerRequestHandler action h2)
                 (exec (registerRequestHandler action h1) B))
              (source B) o_a id action payload h2 v
              Hq eq_refl Hh Hv) as (Hi & Hp & _ & _).
  split; [exact Hi|]. split; [exact Hp|]. split; [|reflexivity].
  simpl. rewrite !lookup_insert_ne by congruence. reflexivity.
Qed.

Lemma last_registration_wins_witness :
  let B' := exec (registerRequestHandler "echo" echo)
              (exec (registerRequestHandler "echo" refuse) responder) in
  (quiescent responder /\ echo VNull = Normal (VObj [("echo", VNull)]) /\
   "refuse" <> "echo") /\
  invoked (deliver (mkEvent (Some (source B')) "http://host"
                      (request_of "id-1" "echo" VNull)) B')
  = (invoked responder ++ [mkInvocation OfRequest "echo" VNull])%list /\
  posted (deliver (mkEvent (Some (source B')) "http://host"
                     (request_of "id-1" "echo" VNull)) B')
  = (posted responder ++
     [mkPosted (response_of (VStr "id-1") (VObj [("echo", VNull)]) VUndef)
        (origin responder)])%list /\
  requestHandlers B' !! "refuse" = requestHandlers responder !! "refuse" /\
  eventHandlers B' = eventHandlers responder.
Proof.
  cbv zeta. split.
  - repeat split; [discriminate].
  - apply (last_registration_wins responder "http://host" "id-1" "echo"
             "refuse" VNull refuse echo (VObj [("echo", VNull)]));
      [reflexivity | reflexivity | discriminate].
Defined.

(** ** Requests *)

(** X11. A Request for an action with a registered handler is always
    answered, whatever the handler does: the handler is called once and
    exactly one Response bearing the request's id is posted, with a
    truthy error field exactly when the handler failed; nothing leaves
    the dispatch uncaught. *)
Theorem request_always_answered (B : Endpoint) (o_a id : string)
    (action : string) (payload : value) (h : Handler) :
  quiescent B ->
  requestHandlers B !! action = Some h ->
  let B1 :=
    deliver (mkEvent (Some (source B)) o_a (request_of id action payload)) B in
  invoked B1 = (invoked B ++ [mkInvocation OfRequest action payload])%list /\
  uncaught B1 = uncaught B /\
  exists response error,
    posted B1 = (posted B ++ [response])%list /\
    isResponse (message response) = Normal true /\
    Js.get (message response) "id" = Normal (VStr id) /\
    Js.get (message response) "error" = Normal error /\
    Js.truthy error = match h payload with
                      | Normal _ => false
                      | Throw _ => true
                      end.
Proof.
  intros Hq Hh. cbv zeta.
  destruct (h payload) as [v|err] eqn:Hv.
  - destruct (deliver_request_ok B (source B) o_a id action payload h v
                Hq eq_refl Hh Hv) as (Hi & Hp & Hu & _).
    split; [exact Hi|]. split; [exact Hu|].
    eexists; exists VUndef. split; [exact Hp|]. repeat split.
  - destruct (toErrorPayload_total err) as (p & Hp').
    destruct (deliver_request_fail B (source B) o_a id action payload h err p
                Hq eq_refl Hh Hv Hp') as (Hi & Hp & Hu & _).
    split; [exact Hi|]. split; [exact Hu|].
    eexists; exists (VBool true). split; [exact Hp|]. repeat split.
Qed.

Lemma request_always_answered_witness :
  let B1 :=
    deliver (mkEvent (Some (source responder)) "http://host"
               (request_of "id-9" "refuse" VNull)) responder in
  (quiescent responder /\ requestHandlers responder !! "refuse" = Some refuse) /\
  invoked B1 = (invoked responder ++ [mkInvocation OfRequest "refuse" VNull])%list /\
  uncaught B1 = uncaught responder /\
  exists response error,
    posted B1 = (posted responder ++ [response])%list /\
    isResponse (message response) = Normal true /\
    Js.get (message response) "id" = Normal (VStr "id-9") /\
    Js.get (message response) "error" = Normal error /\
    Js.truthy error = match refuse VNull with
                      | Normal _ => false
                      | Throw _ => true
                      end.
Proof.
  cbv zeta. split.
  - split; vm_compute; reflexivity.
  - apply (request_always_answered responder "http://host" "id-9" "refuse"
             VNull refuse); vm_compute; reflexivity.
Defined.

Lemma not_accepted_request v : accepts (isRequest v) = false -> isRequest v = Normal false.
Proof.
  destruct (isRequest_total v) as ([|] & H); rewrite H; simpl;
    [discriminate|reflexivity].
Qed.

Lemma not_accepted_event v : accepts (isEvent v) = false -> isEvent v = Normal false.
Proof.
  destruct (isEvent_total v) as ([|] & H); rewrite H; simpl;
    [discriminate|reflexivity].
Qed.

Lemma request_is_not_response v :
  isRequest v = Normal true -> isResponse v = Normal false.
Proof.
  intros H. apply isRequest_shape in H. destruct H as (_ & _ & Ht).
  unfold isResponse, Js.and_then.
  destruct v; simpl in *; try reflexivity; try discriminate.
  destruct (Js.own props "id"); simpl; [|reflexivity].
  destruct (Js.own props "type") as [t|]; simpl in *; [|discriminate].
  injection Ht as ->. reflexivity.
Qed.

(** X12. Any message [isRequest] accepts, from the bound peer, whose
    action finds no request handler and has a string form (a number
    among the actions being a safe integer), is answered with exactly one
    error Response: it carries the request's [id] unchanged, whatever
    value that is, and an Error naming the action. No handler is called
    and nothing is left uncaught. *)
Theorem unknown_action_reply (B : Endpoint) (o_a : string)
    (data action rid : value) (name : string) :
  quiescent B ->
  isRequest data = Normal true ->
  Js.get data "action" = Normal action ->
  Js.get data "id" = Normal rid ->
  registry_get (requestHandlers B) action = None ->
  (forall z, action = VNum z -> safe_integer z) ->
  Js.to_string action = Normal name ->
  let B1 := deliver (mkEvent (Some (source B)) o_a data) B in
  posted B1
  = (posted B ++
     [mkPosted (response_of rid (VErr "Error" ("Ação desconhecida: " ++ name))
                  (VBool true)) (origin B)])%list /\
  invoked B1 = invoked B /\ uncaught B1 = uncaught B /\
  waiters B1 = waiters B.
Proof.
  intros Hq Hr Ha Hid Hreg _ Hs. cbv zeta. unfold deliver.
  rewrite run_callbacks_idle;
    [| apply request_is_not_response; exact Hr
     | apply messageHandler_step; exact Hq ].
  pose proof (request_is_not_event data Hr) as He.
  destruct B as [d src og rh eh ws mt ps cs inv unc].
  unfold quiescent in Hq. cbn [microtasks requestHandlers] in Hq, Hreg.
  subst mt. cbn [invoked posted uncaught waiters origin source].
  unfold run_listener, messageHandler, bind, lift. simpl.
  rewrite Nat.eqb_refl. simpl.
  destruct d; simpl; rewrite He, Hr; simpl;
    unfold handleRequest, bind, lift; rewrite Ha; simpl;
    rewrite Hreg; simpl; rewrite Hs;
    unfold reply, bind, lift; rewrite Hid; simpl;
    unfold checkpoint; simpl; repeat split.
Qed.

Lemma unknown_action_reply_witness :
  let data := VObj [("id", VNum 17); ("type", VStr messageTypeRequest);
                    ("action", VNum 5)] in
  let B1 := deliver (mkEvent (Some (source responder)) "http://host" data)
              responder in
  (quiescent responder /\ isRequest data = Normal true /\
   Js.get data "action" = Normal (VNum 5) /\
   Js.get data "id" = Normal (VNum 17) /\
   registry_get (requestHandlers responder) (VNum 5) = None /\
   (forall z, VNum 5 = VNum z -> safe_integer z) /\
   Js.to_string (VNum 5) = Normal "5") /\
  posted B1
  = (posted responder ++
     [mkPosted (response_of (VNum 17) (VErr "Error" ("Ação desconhecida: " ++ "5"))
                  (VBool true)) (origin responder)])%list /\
  invoked B1 = invoked responder /\ uncaught B1 = uncaught responder /\
  waiters B1 = waiters responder.
Proof.
  cbv zeta.
  assert (Hsafe : forall z, VNum 5 = VNum z -> safe_integer z).
  { intros z H. injection H as <-. unfold safe_integer. lia. }
  split.
  - repeat split; try exact Hsafe; vm_compute; reflexivity.
  - apply (unknown_action_reply responder "http://host"
             (VObj [("id", VNum 17); ("type", VStr messageTypeRequest);
                    ("action", VNum 5)])
             (VNum 5) (VNum 17) "5"); try exact Hsafe; vm_compute; reflexivity.
Defined.

(** ** What a delivery can and cannot change *)

Lemma messageHandler_no_kind msg st :
  isEvent (ev_data msg) = Normal false ->
  isRequest (ev_data msg) = Normal false ->
  fst (messageHandler msg st) = Normal tt /\
  same_messenger st (snd (messageHandler msg st)) /\
  waiters (snd (messageHandler msg st)) = waiters st /\
  microtasks (snd (messageHandler msg st)) = microtasks st /\
  uncaught (snd (messageHandler msg st)) = uncaught st /\
  (debug st = false -> snd (messageHandler msg st) = st).
Proof.
  intros He Hr. unfold messageHandler, bind, lift. simpl.
  destruct (ev_source msg) as [w|]; [|simpl; repeat split].
  destruct (negb (Nat.eqb w (source st))); [simpl; repeat split|].
  destruct st as [d src og rh eh ws mt ps cs inv unc]. simpl.
  destruct d; simpl; rewrite He, Hr; simpl; repeat split; discriminate.
Qed.

Lemma waiter_after_id event w : w_id (waiter_after event w) = w_id w.
Proof.
  destruct w as [id [| |] [|]]; simpl; try reflexivity.
  destruct (response_outcome id (ev_data event)); reflexivity.
Qed.

Lemma deliver_waiters_map event st :
  quiescent st ->
  waiters (deliver event st) = map (waiter_after event) (waiters st).
Proof.
  intros Hq. apply list_eq. intros i.
  rewrite deliver_waiters by exact Hq. rewrite list_lookup_fmap. reflexivity.
Qed.

Lemma deliver_same_messenger event st :
  quiescent st ->
  debug (deliver event st) = debug st /\
  source (deliver event st) = source st /\
  origin (deliver event st) = origin st /\
  requestHandlers (deliver event st) = requestHandlers st /\
  eventHandlers (deliver event st) = eventHandlers st.
Proof.
  intros Hq. unfold deliver.
  destruct (messageHandler_step event st Hq) as ((_ & Hd & Hs & Ho & Hr & He) & Hq1).
  destruct (run_callbacks_spec (length (waiters st)) 0 event _ Hq1)
    as ((Hd' & Hs' & Ho' & Hr' & He' & _) & _).
  repeat split; congruence.
Qed.

(** X13. No message, whatever it holds and wherever it comes from, can
    change a messenger's configuration: after a delivery the two
    registries, the bound peer, the target origin and the debug flag are
    as before, the same calls exist with the same ids in the same order,
    and the microtask queue is empty again. *)
Theorem deliver_keeps_configuration (event : MessageEvent) (st : Endpoint) :
  quiescent st ->
  let st' := deliver event st in
  requestHandlers st' = requestHandlers st /\
  eventHandlers st' = eventHandlers st /\
  source st' = source st /\ origin st' = origin st /\
  debug st' = debug st /\
  map w_id (waiters st') = map w_id (waiters st) /\
  quiescent st'.
Proof.
  intros Hq. cbv zeta.
  destruct (deliver_same_messenger event st Hq) as (Hd & Hs & Ho & Hr & He).
  repeat split; try assumption.
  - rewrite deliver_waiters_map by exact Hq.
    rewrite map_map. apply map_ext. intros w. apply waiter_after_id.
  - apply deliver_quiescent. exact Hq.
Qed.

Lemma deliver_keeps_configuration_witness :
  let st := exec (sendRequest "id-1" "echo" VNull) responder in
  let event := mkEvent (Some 1) "http://host"
                 (response_of (VStr "id-1") (VStr "done") VUndef) in
  quiescent st /\
  requestHandlers (deliver event st) = requestHandlers st /\
  eventHandlers (deliver event st) = eventHandlers st /\
  source (deliver event st) = source st /\
  origin (deliver event st) = origin st /\
  debug (deliver event st) = debug st /\
  map w_id (waiters (deliver event st)) = map w_id (waiters st) /\
  quiescent (deliver event st).
Proof.
  cbv zeta. split; [reflexivity|].
  apply (deliver_keeps_configuration
           (mkEvent (Some 1) "http://host"
              (response_of (VStr "id-1") (VStr "done") VUndef))
           (exec (sendRequest "id-1" "echo" VNull) responder)).
  reflexivity.
Defined.

(** X14. Only a Request or an Event from the bound peer makes the
    messenger act. A message from any other source, and a message that
    is neither a Request nor an Event (a Response among them), calls no
    handler and posts nothing. *)
Theorem only_bound_requests_and_events_act (event : MessageEvent)
    (st : Endpoint) :
  quiescent st ->
  ev_source event <> Some (source st) \/
  (accepts (isRequest (ev_data event)) = false /\
   accepts (isEvent (ev_data event)) = false) ->
  invoked (deliver event st) = invoked st /\
  posted (deliver event st) = posted st.
Proof.
  intros Hq Hcase. unfold deliver.
  assert (H1 : let st1 := run_listener (messageHandler event) st in
               invoked st1 = invoked st /\ posted st1 = posted st /\
               quiescent st1).
  { cbv zeta. unfold run_listener. destruct Hcase as [Hsrc|(Hr & He)].
    - rewrite messageHandler_foreign by exact Hsrc.
      rewrite checkpoint_quiescent by exact Hq. repeat split. exact Hq.
    - apply not_accepted_request in Hr. apply not_accepted_event in He.
      destruct (messageHandler_no_kind event st He Hr)
        as (Hn & (_ & _ & _ & _ & _ & Hp & Hi) & _ & Hm & _).
      destruct (messageHandler event st) as [c st1]. simpl in *. subst c.
      assert (Hq1 : quiescent st1) by (unfold quiescent; congruence).
      rewrite checkpoint_quiescent by exact Hq1. repeat split; assumption. }
  cbv zeta in H1. destruct H1 as (Hi & Hp & Hq1).
  destruct (run_callbacks_spec (length (waiters st)) 0 event _ Hq1)
    as ((_ & _ & _ & _ & _ & Hp' & Hi') & _).
  split; congruence.
Qed.

Lemma only_bound_requests_and_events_act_witness :
  let event := mkEvent (Some 3) "http://evil" (request_of "id-1" "echo" VNull) in
  (quiescent responder /\
   (ev_source event <> Some (source responder) \/
    (accepts (isRequest (ev_data event)) = false /\
     accepts (isEvent (ev_data event)) = false))) /\
  invoked (deliver event responder) = invoked responder /\
  posted (deliver event responder) = posted responder.
Proof.
  cbv zeta. split.
  - split; [reflexivity|]. left. discriminate.
  - apply (only_bound_requests_and_events_act
             (mkEvent (Some 3) "http://evil" (request_of "id-1" "echo" VNull))
             responder); [reflexivity|]. left. discriminate.
Defined.

(** X15. A message of no kind (not an Event, not a Request, not a
    Response: any primitive, [null], an object without a recognised
    [type]) is dropped without a trace: with [debug] off the window after
    the delivery is the window before, from whatever source it came. *)
Theorem unrecognised_message_dropped (event : MessageEvent) (st : Endpoint) :
  quiescent st ->
  debug st = false ->
  isEvent (ev_data event) = Normal false ->
  isRequest (ev_data event) = Normal false ->
  isResponse (ev_data event) = Normal false ->
  deliver event st = st.
Proof.
  intros Hq Hd He Hr Hs. unfold deliver, run_listener.
  destruct (messageHandler_no_kind event st He Hr) as (Hn & _ & _ & _ & _ & Hid).
  specialize (Hid Hd).
  destruct (messageHandler event st) as [c st1]. simpl in *. subst c st1.
  rewrite checkpoint_quiescent by exact Hq.
  apply run_callbacks_idle; assumption.
Qed.

Lemma unrecognised_message_dropped_witness :
  let st := exec (sendRequest "id-1" "echo" VNull) responder in
  let event := mkEvent (Some 1) "http://host" (VStr "webpackOk") in
  (quiescent st /\ debug st = false /\
   isEvent (ev_data event) = Normal false /\
   isRequest (ev_data event) = Normal false /\
   isResponse (ev_data event) = Normal false) /\
  deliver event st = st.
Proof.
  cbv zeta. split.
  - repeat split; reflexivity.
  - apply (unrecognised_message_dropped
             (mkEvent (Some 1) "http://host" (VStr "webpackOk"))
             (exec (sendRequest "id-1" "echo" VNull) responder));
      reflexivity.
Defined.

(** ** The life of a pending call *)

Lemma deliver_all_quiescent events : forall st,
  quiescent st -> quiescent (deliver_all events st).
Proof.
  induction events as [|e events IH]; intros st Hq; simpl; [exact Hq|].
  apply IH, deliver_quiescent, Hq.
Qed.

Lemma deliver_all_stable events : forall st k w,
  quiescent st ->
  waiters st !! k = Some w ->
  Forall (fun e => waiter_after e w = w) events ->
  waiters (deliver_all events st) !! k = Some w.
Proof.
  induction events as [|e events IH]; intros st k w Hq Hk Hall; simpl;
    [exact Hk|].
  inversion Hall as [|? ? He Hrest]; subst.
  apply IH; [apply deliver_quiescent; exact Hq | | exact Hrest].
  rewrite deliver_waiters by exact Hq. rewrite Hk. simpl. rewrite He.
  reflexivity.
Qed.

Lemma not_bears_outcome id data :
  ~ bears id data -> response_outcome id data = None.
Proof.
  intros Hn. unfold response_outcome.
  destruct (isResponse data) as [[|]|] eqn:Hr; try reflexivity.
  destruct (Js.get data "id") as [rid|] eqn:Hid; try reflexivity.
  destruct (Js.strict_eq_string rid id) eqn:Heq; try reflexivity.
  exfalso. apply Hn. split; [exact Hr|]. exists rid. split; assumption.
Qed.

(** X16. A call is settled once and for all. After the Response bearing
    its id has fulfilled or rejected it, its listener is detached and no
    later message changes the outcome: not a second Response with the
    same id, not any other traffic. *)
Theorem settled_for_good (A : Endpoint) (id action : string) (payload : value)
    (r : MessageEvent) (s : Settlement) (later : list MessageEvent) :
  quiescent A ->
  answer id (ev_data r) s ->
  let k := length (waiters A) in
  let A1 := exec (sendRequest id action payload) A in
  waiters (deliver r A1) !! k = Some (mkWaiter id s false) /\
  waiters (deliver_all later (deliver r A1)) !! k = Some (mkWaiter id s false).
Proof.
  intros Hq Ha. cbv zeta.
  assert (H1 : waiters (deliver r (exec (sendRequest id action payload) A))
                 !! length (waiters A) = Some (mkWaiter id s false)).
  { rewrite sendRequest_then_deliver by exact Hq.
    rewrite (answer_own _ _ _ Ha). reflexivity. }
  split; [exact H1|].
  apply deliver_all_stable; [|exact H1|].
  - apply deliver_quiescent, sendRequest_quiescent, Hq.
  - apply Forall_forall. intros e _. destruct s; reflexivity.
Qed.

Lemma settled_for_good_witness :
  let r := mkEvent (Some 2) "http://frame"
             (response_of (VStr "id-1") (VStr "first") VUndef) in
  let later :=
    [mkEvent (Some 2) "http://frame"
       (response_of (VStr "id-1") (VStr "second") VUndef);
     mkEvent (Some 2) "http://frame"
       (response_of (VStr "id-1") (VStr "oops") (VBool true))] in
  let A1 := exec (sendRequest "id-1" "echo" VNull) requester in
  (quiescent requester /\
   answer "id-1" (ev_data r) (Fulfilled (VStr "first"))) /\
  waiters (deliver r A1) !! 0
  = Some (mkWaiter "id-1" (Fulfilled (VStr "first")) false) /\
  waiters (deliver_all later (deliver r A1)) !! 0
  = Some (mkWaiter "id-1" (Fulfilled (VStr "first")) false).
Proof.
  cbv zeta.
  assert (Ha : answer "id-1" (response_of (VStr "id-1") (VStr "first") VUndef)
                 (Fulfilled (VStr "first"))).
  { split; [reflexivity|]. split; [reflexivity|].
    exists VUndef, (VStr "first"). split; [reflexivity|]. split; [reflexivity|].
    left. split; reflexivity. }
  split.
  - split; [reflexivity|exact Ha].
  - apply (settled_for_good requester "id-1" "echo" VNull
             (mkEvent (Some 2) "http://frame"
                (response_of (VStr "id-1") (VStr "first") VUndef))
             (Fulfilled (VStr "first"))); [reflexivity|exact Ha].
Defined.

(** X17. A call stays pending, its listener attached, for as long as no
    Response bearing its id arrives: no sequence of other messages,
    however long, settles it or times it out. *)
Theorem pending_until_answered (A : Endpoint) (id action : string)
    (payload : value) (events : list MessageEvent) :
  quiescent A ->
  Forall (fun e => ~ bears id (ev_data e)) events ->
  let k := length (waiters A) in
  let A1 := exec (sendRequest id action payload) A in
  waiters (deliver_all events A1) !! k = Some (mkWaiter id Pending true).
Proof.
  intros Hq Hall. cbv zeta.
  apply deliver_all_stable;
    [apply sendRequest_quiescent; exact Hq | apply sendRequest_waiter |].
  eapply Forall_impl; [exact Hall|].
  intros e Hn. simpl. rewrite (not_bears_outcome _ _ Hn). reflexivity.
Qed.

Lemma pending_until_answered_witness :
  let events :=
    [mkEvent (Some 2) "http://frame" (response_of (VStr "id-2") VNull VUndef);
     mkEvent (Some 2) "http://frame" (event_of "changed" VNull);
     mkEvent None "" (VNum 0)] in
  (quiescent requester /\
   Forall (fun e => ~ bears "id-1" (ev_data e)) events) /\
  waiters (deliver_all events (exec (sendRequest "id-1" "echo" VNull) requester))
    !! 0
  = Some (mkWaiter "id-1" Pending true).
Proof.
  cbv zeta.
  assert (Hall : Forall (fun e => ~ bears "id-1" (ev_data e))
            [mkEvent (Some 2) "http://frame"
               (response_of (VStr "id-2") VNull VUndef);
             mkEvent (Some 2) "http://frame" (event_of "changed" VNull);
             mkEvent None "" (VNum 0)]).
  { repeat constructor.
    - intros (_ & rid & Hid & Heq). simpl in Hid. injection Hid as <-.
      discriminate Heq.
    - intros (Hr & _). discriminate Hr.
    - intros (Hr & _). discriminate Hr. }
  split.
  - split; [reflexivity|exact Hall].
  - apply (pending_until_answered requester "id-1" "echo" VNull);
      [reflexivity|exact Hall].
Defined.

(** X18. A native Error with one of the standard names, thrown by a
    request handler, crosses unchanged: [toErrorPayload] passes it
    through, the Response carries it with the error flag set,
    [parseErrorPayload] returns it as it is, and the caller's awaitable
    is rejected with that very error. *)
Theorem native_error_passes_through (A B : Endpoint) (o_a o_b : string)
    (w_b : Win) (id action : string) (payload : value) (h : Handler)
    (name msg : string) :
  quiescent A -> quiescent B ->
  requestHandlers B !! action = Some h ->
  h payload = Throw (VErr name msg) ->
  In name standard_error_names ->
  let k := length (waiters A) in
  let A1 := exec (sendRequest id action payload) A in
  exists request response,
    posted A1 = (posted A ++ [request])%list /\
    let B1 := deliver (arrives (source B) o_a request) B in
    posted B1 = (posted B ++ [response])%list /\
    Js.get (message response) "payload" = Normal (VErr name msg) /\
    Js.get (message response) "error" = Normal (VBool true) /\
    let A2 := deliver (arrives w_b o_b response) A1 in
    waiters A2 !! k = Some (mkWaiter id (Rejected (VErr name msg)) false).
Proof.
  intros HqA HqB Hh Hv _. cbv zeta.
  exists (mkPosted (request_of id action payload) (origin A)),
         (mkPosted (response_of (VStr id) (VErr name msg) (VBool true))
            (origin B)).
  destruct (deliver_request_fail B (source B) o_a id action payload h
              (VErr name msg) (VErr name msg) HqB eq_refl Hh Hv eq_refl)
    as (_ & Hp & _ & _).
  split; [reflexivity|]. split; [exact Hp|].
  split; [reflexivity|]. split; [reflexivity|].
  rewrite sendRequest_then_deliver by exact HqA.
  unfold arrives. simpl. rewrite response_outcome_error. reflexivity.
Qed.

Lemma native_error_passes_through_witness :
  let B := exec (registerRequestHandler "crash" crash) (constructor 1) in
  (quiescent requester /\ quiescent B /\
   requestHandlers B !! "crash" = Some crash /\
   crash VNull = Throw (VErr "Error" "boom") /\
   In "Error" standard_error_names) /\
  exists request response,
    posted (exec (sendRequest "id-1" "crash" VNull) requester)
    = (posted requester ++ [request])%list /\
    posted (deliver (arrives (source B) "http://host" request) B)
    = (posted B ++ [response])%list /\
    Js.get (message response) "payload" = Normal (VErr "Error" "boom") /\
    Js.get (message response) "error" = Normal (VBool true) /\
    waiters (deliver (arrives 2 "http://frame" response)
               (exec (sendRequest "id-1" "crash" VNull) requester)) !! 0
    = Some (mkWaiter "id-1" (Rejected (VErr "Error" "boom")) false).
Proof.
  cbv zeta. split.
  - repeat split; try (left; reflexivity); vm_compute; reflexivity.
  - apply (native_error_passes_through requester
             (exec (registerRequestHandler "crash" crash) (constructor 1))
             "http://host" "http://frame" 2 "id-1" "crash" VNull crash
             "Error" "boom"); try (left; reflexivity); vm_compute; reflexivity.
Defined.

(** ** Events in sequence *)

Lemma events_in_order_from (src : Win) (o : string)
    (l : list (string * value)) : forall B,
  quiescent B ->
  source B = src ->
  Forall (fun ap => is_Some (eventHandlers B !! fst ap)) l ->
  let events := map (fun ap => mkEvent (Some src) o (event_of (fst ap) (snd ap))) l in
  invoked (deliver_all events B)
  = (invoked B ++ map (fun ap => mkInvocation OfEvent (fst ap) (snd ap)) l)%list /\
  posted (deliver_all events B) = posted B /\
  waiters (deliver_all events B) = waiters B.
Proof.
  induction l as [|[a p] l IH]; intros B Hq Hsrc Hall; cbv zeta; simpl.
  - rewrite app_nil_r. repeat split.
  - inversion Hall as [|? ? [h Hh] Hrest]; subst. simpl in Hh.
    destruct (deliver_event_handled B (source B) o a p h Hq eq_refl Hh)
      as (Hi & Hp & Hw & _).
    set (B1 := deliver (mkEvent (Some (source B)) o (event_of a p)) B) in *.
    destruct (deliver_same_messenger
                (mkEvent (Some (source B)) o (event_of a p)) B Hq)
      as (_ & Hs & _ & _ & He).
    fold B1 in Hs, He.
    assert (Hall1 : Forall (fun ap => is_Some (eventHandlers B1 !! fst ap)) l)
      by (rewrite He; exact Hrest).
    destruct (IH B1 (deliver_quiescent _ _ Hq) Hs Hall1) as (Hi' & Hp' & Hw').
    cbv zeta in Hi', Hp', Hw'.
    rewrite Hi', Hp', Hw', Hi, Hp, Hw. rewrite <- app_assoc. repeat split.
Qed.

(** X19. Events from the bound peer are handled one by one in the order
    they are delivered: after a run of Events whose actions all have a
    handler, the handlers have been called once each, in that order, with
    the payloads sent, and nothing was posted. A handler that throws does
    not keep the Events behind it from being handled. *)
Theorem events_handled_in_order (B : Endpoint) (o : string)
    (l : list (string * value)) :
  quiescent B ->
  Forall (fun ap => is_Some (eventHandlers B !! fst ap)) l ->
  let events :=
    map (fun ap => mkEvent (Some (source B)) o (event_of (fst ap) (snd ap))) l in
  invoked (deliver_all events B)
  = (invoked B ++ map (fun ap => mkInvocation OfEvent (fst ap) (snd ap)) l)%list /\
  posted (deliver_all events B) = posted B /\
  waiters (deliver_all events B) = waiters B.
Proof.
  intros Hq Hall. apply events_in_order_from; [exact Hq|reflexivity|exact Hall].
Qed.

Lemma events_handled_in_order_witness :
  let B := exec (registerEventsHandler "ping" echo) responder in
  let l := [("changed", VNum 1); ("ping", VNum 2); ("changed", VNum 3)] in
  let events :=
    map (fun ap => mkEvent (Some (source B)) "http://host"
                     (event_of (fst ap) (snd ap))) l in
  (quiescent B /\
   Forall (fun ap => is_Some (eventHandlers B !! fst ap)) l) /\
  invoked (deliver_all events B)
  = (invoked B ++ map (fun ap => mkInvocation OfEvent (fst ap) (snd ap)) l)%list /\
  posted (deliver_all events B) = posted B /\
  waiters (deliver_all events B) = waiters B.
Proof.
  cbv zeta.
  assert (Hall : Forall
            (fun ap => is_Some
               (eventHandlers (exec (registerEventsHandler "ping" echo) responder)
                  !! fst ap))
            [("changed", VNum 1); ("ping", VNum 2); ("changed", VNum 3)]).
  { repeat constructor; vm_compute; eauto. }
  split.
  - split; [reflexivity|exact Hall].
  - apply (events_handled_in_order
             (exec (registerEventsHandler "ping" echo) responder)
             "http://host"
             [("changed", VNum 1); ("ping", VNum 2); ("changed", VNum 3)]);
      [reflexivity|exact Hall].
Defined.

(** ** The dashboards services *)

(** X20. The wrapper [onDataUpdate] registers never throws, whatever
    [JSON.parse] and the callback do. When both succeed it logs nothing;
    when either fails it logs exactly one console error carrying the
    thrown value, a failure of the callback under the same label as a
    parse failure. *)
Theorem onDataUpdate_wrapper_contains_failures
    (JSON_parse : value -> completion value) (callback : Handler)
    (data : value) (st : Endpoint) :
  fst (onDataUpdate_wrapper JSON_parse callback data st) = Normal tt /\
  snd (onDataUpdate_wrapper JSON_parse callback data st)
  = match JSON_parse data with
    | Normal parsed =>
        match callback parsed with
        | Normal _ => st
        | Throw e => exec (console_write LError "Erro ao analisar dados" [e]) st
        end
    | Throw e => exec (console_write LError "Erro ao analisar dados" [e]) st
    end.
Proof.
  unfold onDataUpdate_wrapper, catch, bind, lift.
  destruct (JSON_parse data) as [parsed|e]; simpl; [|split; reflexivity].
  destruct (callback parsed); simpl; split; reflexivity.
Qed.

(** X21. [notifyUpdate] in the frame reaches the callback the host gave
    to [onUpdate]: the frame posts one Event, and when the host receives
    it from its frame the callback is called once, with [undefined].
    Nothing is posted back. *)
Theorem notifyUpdate_reaches_onUpdate (c : Constants) (frame host : Endpoint)
    (o : string) (callback : Handler) :
  quiescent host ->
  let host' := exec (onUpdate c callback) host in
  exists event,
    posted (exec (notifyUpdate c) frame) = (posted frame ++ [event])%list /\
    isEvent (message event) = Normal true /\
    let host1 := deliver (arrives (source host) o event) host' in
    invoked host1
    = (invoked host ++
       [mkInvocation OfEvent (DASHBOARDS_EVENT_ON_UPDATE c) VUndef])%list /\
    posted host1 = posted host.
Proof.
  intros Hq. cbv zeta.
  exists (mkPosted (event_of (DASHBOARDS_EVENT_ON_UPDATE c) VUndef) (origin frame)).
  split; [reflexivity|]. split; [reflexivity|].
  assert (Hh : eventHandlers (exec (onUpdate c callback) host)
               !! DASHBOARDS_EVENT_ON_UPDATE c = Some callback)
    by (simpl; apply lookup_insert_eq).
  destruct (deliver_event_handled (exec (onUpdate c callback) host)
              (source host) o (DASHBOARDS_EVENT_ON_UPDATE c) VUndef callback
              Hq eq_refl Hh) as (Hi & Hp & _).
  split; [exact Hi|exact Hp].
Qed.

Lemma notifyUpdate_reaches_onUpdate_witness :
  let host := HostDashboardsService 2 in
  let frame := IframeDashboardsService 1 in
  quiescent host /\
  exists event,
    posted (exec (notifyUpdate sample_constants) frame)
    = (posted frame ++ [event])%list /\
    isEvent (message event) = Normal true /\
    invoked (deliver (arrives (source host) "http://frame" event)
               (exec (onUpdate sample_constants echo) host))
    = (invoked host ++
       [mkInvocation OfEvent (DASHBOARDS_EVENT_ON_UPDATE sample_constants)
          VUndef])%list /\
    posted (deliver (arrives (source host) "http://frame" event)
              (exec (onUpdate sample_constants echo) host))
    = posted host.
Proof.
  cbv zeta. split; [reflexivity|].
  apply (notifyUpdate_reaches_onUpdate sample_constants
           (IframeDashboardsService 1) (HostDashboardsService 2)
           "http://frame" echo).
  reflexivity.
Defined.

(** X22. [fetchImages] on the host is answered by the handler the frame
    gave to [handleFetchImages]: the handler is called once with the
    empty object, and the host's awaitable is fulfilled with the value
    the handler returned. *)
Theorem fetchImages_answered (c : Constants) (host frame : Endpoint)
    (o_h o_f : string) (w_f : Win) (id : string) (handler : Handler)
    (images : value) :
  quiescent host -> quiescent frame ->
  handler (VObj []) = Normal images ->
  let frame' := exec (handleFetchImages c handler) frame in
  let k := length (waiters host) in
  let host1 := exec (fetchImages c id) host in
  exists request response,
    fst (fetchImages c id host) = Normal k /\
    posted host1 = (posted host ++ [request])%list /\
    let frame1 := deliver (arrives (source frame) o_h request) frame' in
    invoked frame1
    = (invoked frame ++
       [mkInvocation OfRequest (DASHBOARDS_REQUEST_IMAGES_FETCH c) (VObj [])])%list /\
    posted frame1 = (posted frame ++ [response])%list /\
    let host2 := deliver (arrives w_f o_f response) host1 in
    waiters host2 !! k = Some (mkWaiter id (Fulfilled images) false).
Proof.
  intros Hqh Hqf Hv. cbv zeta.
  exists (mkPosted (request_of id (DASHBOARDS_REQUEST_IMAGES_FETCH c) (VObj []))
            (origin host)),
         (mkPosted (response_of (VStr id) images VUndef) (origin frame)).
  assert (Hh : requestHandlers (exec (handleFetchImages c handler) frame)
               !! DASHBOARDS_REQUEST_IMAGES_FETCH c = Some handler)
    by (simpl; apply lookup_insert_eq).
  destruct (deliver_request_ok (exec (handleFetchImages c handler) frame)
              (source frame) o_h id (DASHBOARDS_REQUEST_IMAGES_FETCH c)
              (VObj []) handler images Hqf eq_refl Hh Hv)
    as (Hi & Hp & _ & _).
  split; [reflexivity|]. split; [reflexivity|].
  split; [exact Hi|]. split; [exact Hp|].
  unfold fetchImages. rewrite sendRequest_then_deliver by exact Hqh.
  unfold arrives. simpl. rewrite response_outcome_success. reflexivity.
Qed.

Lemma fetchImages_answered_witness :
  let host := HostDashboardsService 2 in
  let frame := IframeDashboardsService 1 in
  (quiescent host /\ quiescent frame /\
   echo (VObj []) = Normal (VObj [("echo", VObj [])])) /\
  exists request response,
    fst (fetchImages sample_constants "id-1" host) = Normal 0 /\
    posted (exec (fetchImages sample_constants "id-1") host)
    = (posted host ++ [request])%list /\
    invoked (deliver (arrives (source frame) "http://host" request)
               (exec (handleFetchImages sample_constants echo) frame))
    = (invoked frame ++
       [mkInvocation OfRequest
          (DASHBOARDS_REQUEST_IMAGES_FETCH sample_constants) (VObj [])])%list /\
    posted (deliver (arrives (source frame) "http://host" request)
              (exec (handleFetchImages sample_constants echo) frame))
    = (posted frame ++ [response])%list /\
    waiters (deliver (arrives 1 "http://frame" response)
               (exec (fetchImages sample_constants "id-1") host)) !! 0
    = Some (mkWaiter "id-1" (Fulfilled (VObj [("echo", VObj [])])) false).
Proof.
  cbv zeta. split.
  - repeat split; reflexivity.
  - apply (fetchImages_answered sample_constants (HostDashboardsService 2)
             (IframeDashboardsService 1) "http://host" "http://frame" 1
             "id-1" echo (VObj [("echo", VObj [])])); reflexivity.
Defined.
